(** * Coral Mem0 agent (src/main.py): session bootstrap, memory gateway
      and supervisor loop

    A shallow embedding of the three pieces of [main.py] that carry
    decision logic:

    - [setup_mcp_tools] (lines 26-55): the connection descriptor
      [CORAL_SERVER_URL] built from the environment with
      [urllib.parse.urlencode];
    - [store_user_request_in_mem0] and [search_mem0_memories]
      (lines 57-93): the two tools that proxy to the Mem0 client and turn
      an [Exception] into a result string;
    - the [while True] loop of [main] (lines 178-188).

    Python strings are sequences of Unicode code points, external calls
    are answered by an oracle (the "world") and recorded in a trace, and
    exceptions carry their class and their [str()]. *)

From Stdlib Require Import NArith ZArith List String Ascii Bool Lia.
From Stdlib Require Import DecimalString.
From stdpp Require Import gmap strings list.
Import ListNotations.

Open Scope N_scope.

(* ===================================================================== *)
(** ** Python values *)
(* ===================================================================== *)

(** A Python [str]: its code points, in order (each below 0x110000). *)
Definition pystr := list N.

(** An ASCII literal of the source as a [pystr]. *)
Definition py (s : string) : pystr :=
  map N_of_ascii (list_ascii_of_string s).

(** The values the modelled code handles: [None], a [str], an [int], or
    an object of a library this program does not look into, known by the
    text [str()] gives for it. *)
Inductive pyval :=
| PyNone
| PyStr (s : pystr)
| PyInt (n : Z)
| PyObj (rendering : pystr).

(** [str(v)], which is also what an f-string field [{v}] renders. *)
Definition str (v : pyval) : pystr :=
  match v with
  | PyNone => py "None"
  | PyStr s => s
  | PyInt n => py (NilZero.string_of_int (Z.to_int n))
  | PyObj r => r
  end.

(** [a == b] on strings. *)
Fixpoint pystr_eqb (a b : pystr) : bool :=
  match a, b with
  | [], [] => true
  | x :: a', y :: b' => (x =? y) && pystr_eqb a' b'
  | _, _ => false
  end.

(** [s[:n]] for a non-negative [n]. *)
Definition slice_to (n : nat) (s : pystr) : pystr := firstn n s.

(** [sub in s]: [sub] occurs in [s] as a contiguous run. *)
Definition contains (s sub : pystr) : Prop :=
  exists pre post, s = pre ++ sub ++ post.

Fixpoint startswith (s p : pystr) {struct p} : bool :=
  match p, s with
  | [], _ => true
  | _ :: _, [] => false
  | x :: p', y :: s' => (x =? y) && startswith s' p'
  end.

Fixpoint containsb (s sub : pystr) : bool :=
  startswith s sub ||
  match s with
  | [] => false
  | _ :: s' => containsb s' sub
  end.

(* ===================================================================== *)
(** ** Exceptions *)
(* ===================================================================== *)

(** The part of Python's exception hierarchy the handlers of [main.py]
    tell apart.  [KeyboardInterrupt], [SystemExit], [GeneratorExit] and
    [asyncio.CancelledError] derive from [BaseException] directly; every
    other class is a subclass of [Exception], given by its name.  The
    handlers name [KeyboardInterrupt] and [Exception] only, so the order
    among the subclasses of [Exception] is left out. *)
Inductive exn_class :=
| BaseException
| Exception
| KeyboardInterrupt
| SystemExit
| GeneratorExit
| CancelledError
| ExceptionSubclass (name : string).

Definition exn_class_eqb (c d : exn_class) : bool :=
  match c, d with
  | BaseException, BaseException
  | Exception, Exception
  | KeyboardInterrupt, KeyboardInterrupt
  | SystemExit, SystemExit
  | GeneratorExit, GeneratorExit
  | CancelledError, CancelledError => true
  | ExceptionSubclass n, ExceptionSubclass m => String.eqb n m
  | _, _ => false
  end.

Definition issubclass (c d : exn_class) : bool :=
  match d with
  | BaseException => true
  | Exception =>
      match c with
      | Exception | ExceptionSubclass _ => true
      | _ => false
      end
  | _ => exn_class_eqb c d
  end.

(** A raised exception instance: its class and [str(e)]. *)
Record exn := mk_exn { exn_cls : exn_class; exn_str : pystr }.

Definition isinstance (e : exn) (c : exn_class) : bool :=
  issubclass (exn_cls e) c.

(** How a call ends. *)
Inductive outcome (A : Type) :=
| Returned (a : A)
| Raised (e : exn).
Arguments Returned {A} a.
Arguments Raised {A} e.

(* ===================================================================== *)
(** ** External calls, the world and the effect monad *)
(* ===================================================================== *)

(** A Python [dict] with string keys, in insertion order. *)
Definition pydict := list (pystr * pyval).

(** The calls [main.py] makes into code it does not define. *)
Inductive call :=
| client_add (messages : list pydict) (user_id : pystr)
| client_search (query : pystr) (user_id : pystr)
| print (text : pystr)
| logger_info (msg : pystr)
| logger_error (msg : pystr)
| MCPServerAdapter (server_params : pydict)
| adapter_tools (mcp_server_adapter : pyval)
| crew_kickoff
| asyncio_sleep (delay : N).

(** The world answers a call by returning a value or raising. *)
Definition world := call -> outcome pyval.

(** What happened, in order: each call with how it ended. *)
Definition event : Type := call * outcome pyval.
Definition trace := list event.

(** A computation runs against a world and yields the calls it made and
    its own outcome. *)
Definition eff (A : Type) : Type := world -> trace * outcome A.

Definition ret {A} (a : A) : eff A := fun _ => ([], Returned a).

Definition raise {A} (e : exn) : eff A := fun _ => ([], Raised e).

Definition bind {A B} (m : eff A) (k : A -> eff B) : eff B :=
  fun w =>
    match m w with
    | (t, Returned a) => let (t', r) := k a w in (t ++ t', r)
    | (t, Raised e) => (t, Raised e)
    end.

Definition perform (c : call) : eff pyval := fun w => ([(c, w c)], w c).

Notation "'let*' x ':=' m 'in' k" := (bind m (fun x => k))
  (at level 10, x name, m at level 100, k at level 200).

(** The [except] clauses of a [try]: the first clause whose class the
    exception is an instance of handles it; with none, it propagates. *)
Fixpoint dispatch {A} (clauses : list (exn_class * (exn -> eff A)))
    (e : exn) : eff A :=
  match clauses with
  | [] => raise e
  | (c, h) :: rest => if isinstance e c then h e else dispatch rest e
  end.

Definition try_except {A} (body : eff A)
    (clauses : list (exn_class * (exn -> eff A))) : eff A :=
  fun w =>
    match body w with
    | (t, Returned a) => (t, Returned a)
    | (t, Raised e) => let (t', r) := dispatch clauses e w in (t ++ t', r)
    end.

(* ===================================================================== *)
(** ** Memory gateway (lines 57-93) *)
(* ===================================================================== *)

(** The emoji that open the four result strings. *)
Definition SPARKLES : pystr := [0x2728].
Definition CROSS_MARK : pystr := [0x274C].
Definition BOOKS : pystr := [0x1F4DA].
Definition MAGNIFIER : pystr := [0x1F50D].

Definition store_user_request_in_mem0 (user_request : pystr) : eff pystr :=
  try_except
    (let messages :=
       [ [ (py "role", PyStr (py "user"));
           (py "content", PyStr user_request) ] ] in
     let* result := perform (client_add messages (py "reddit_user")) in
     ret (SPARKLES ++ py " Successfully stored user request in memory: "
            ++ slice_to 50 user_request ++ py "..."))
    [ (Exception,
       fun e => ret (CROSS_MARK ++ py " Error storing in memory: "
                       ++ exn_str e)) ].

Definition search_mem0_memories (query : pystr) : eff pystr :=
  try_except
    (let* relevant_memories := perform (client_search query (py "reddit_user")) in
     ret (BOOKS ++ py " Relevant memories found for this query: "
            ++ str relevant_memories))
    [ (Exception,
       fun e => ret (MAGNIFIER ++ py " Error searching memories: "
                       ++ exn_str e)) ].


(* ===================================================================== *)
(** ** Supervisor loop (lines 178-188 of [main]) *)
(* ===================================================================== *)

(** How one pass through the body of [while True] leaves it: falling
    through to the next iteration, or by [break]. *)
Inductive ctrl := Continue | Break.

(** Lines 180-182, the body of the [try].  [await asyncio.sleep(d)] is
    the call [asyncio_sleep d]; an interrupt delivered while the coroutine
    is suspended there is that call raising. *)
Definition cycle : eff ctrl :=
  let* _ := perform (logger_info
               (py "Starting new Reddit post generation cycle")) in
  let* _ := perform crew_kickoff in
  let* _ := perform (asyncio_sleep 1) in
  ret Continue.

(** Lines 183-188, the two [except] clauses in their order. *)
Definition handlers : list (exn_class * (exn -> eff ctrl)) :=
  [ (KeyboardInterrupt,
     fun _ =>
       let* _ := perform (logger_info
         (py "Received keyboard interrupt, shutting down gracefully...")) in
       ret Break);
    (Exception,
     fun e =>
       let* _ := perform (logger_error
                    (py "Error in agent loop: " ++ exn_str e)) in
       let* _ := perform (asyncio_sleep 5) in
       ret Continue) ].

(** Lines 179-188: one pass through the body of [while True]. *)
Definition loop_body : eff ctrl := try_except cycle handlers.

(** Where the loop stands: still looping, left by [break], or left by an
    exception that no clause handled. *)
Inductive status :=
| Running
| Stopped
| Propagated (e : exn).

(** The loop from iteration [i] on, against the worlds [w i], [w (i+1)],
    ... of the successive iterations, cut after [fuel] iterations (the
    source loop has no bound: [Running] is the answer when the cut is
    reached). *)
Fixpoint main_loop (fuel : nat) (w : nat -> world) (i : nat)
    : trace * status :=
  match fuel with
  | O => ([], Running)
  | S fuel' =>
      match loop_body (w i) with
      | (t, Returned Continue) =>
          let (t', s) := main_loop fuel' w (S i) in (t ++ t', s)
      | (t, Returned Break) => (t, Stopped)
      | (t, Raised e) => (t, Propagated e)
      end
  end.


(* ===================================================================== *)
(** ** [str.encode("utf-8", "strict")] *)
(* ===================================================================== *)

Definition is_surrogate (c : N) : bool := (0xD800 <=? c) && (c <=? 0xDFFF).

(** The UTF-8 bytes of one code point; a lone surrogate has none (and
    neither has a number above 0x10FFFF, which is no code point). *)
Definition utf8_char (c : N) : option (list N) :=
  if c <? 0x80 then Some [c]
  else if c <? 0x800 then Some [0xC0 + c / 64; 0x80 + c mod 64]
  else if c <? 0x10000 then
    if is_surrogate c then None
    else Some [0xE0 + c / 4096; 0x80 + (c / 64) mod 64; 0x80 + c mod 64]
  else if c <? 0x110000 then
    Some [0xF0 + c / 262144; 0x80 + (c / 4096) mod 64;
          0x80 + (c / 64) mod 64; 0x80 + c mod 64]
  else None.

Definition hex_lower (d : N) : N := if d <? 10 then 48 + d else 87 + d.
Definition hex_upper (d : N) : N := if d <? 10 then 48 + d else 55 + d.

Definition decimal (n : nat) : pystr :=
  py (NilZero.string_of_uint (Nat.to_uint n)).

Fixpoint surrogate_run (s : pystr) : nat :=
  match s with
  | c :: s' => if is_surrogate c then S (surrogate_run s') else O
  | [] => O
  end.

(** The [UnicodeEncodeError] of the strict encoder at the surrogate [c]
    in position [start], followed by [rest]: the error spans the whole run
    of surrogates that starts there, and [str(e)] names the character
    when the run is that one character, and the positions otherwise. *)
Definition UnicodeEncodeError (start : nat) (c : N) (rest : pystr) : exn :=
  let run := surrogate_run rest in
  mk_exn (ExceptionSubclass "UnicodeEncodeError")
    (match run with
     | O =>
         py "'utf-8' codec can't encode character '\u"
           ++ [hex_lower (c / 4096 mod 16); hex_lower (c / 256 mod 16);
               hex_lower (c / 16 mod 16); hex_lower (c mod 16)]
           ++ py "' in position " ++ decimal start
           ++ py ": surrogates not allowed"
     | S _ =>
         py "'utf-8' codec can't encode characters in position "
           ++ decimal start ++ py "-" ++ decimal (start + run)
           ++ py ": surrogates not allowed"
     end).

Fixpoint encode_utf8_from (start : nat) (s : pystr) : outcome (list N) :=
  match s with
  | [] => Returned []
  | c :: s' =>
      match utf8_char c with
      | None => Raised (UnicodeEncodeError start c s')
      | Some bs =>
          match encode_utf8_from (S start) s' with
          | Returned r => Returned (bs ++ r)
          | Raised e => Raised e
          end
      end
  end.

Definition encode_utf8 (s : pystr) : outcome (list N) := encode_utf8_from 0 s.

(* ===================================================================== *)
(** ** [urllib.parse]: [quote], [quote_plus], [urlencode] *)
(* ===================================================================== *)

(** [_ALWAYS_SAFE]: ASCII letters, digits and [_.-~]. *)
Definition always_safe (b : N) : bool :=
  ((65 <=? b) && (b <=? 90)) || ((97 <=? b) && (b <=? 122))
  || ((48 <=? b) && (b <=? 57))
  || (b =? 95) || (b =? 46) || (b =? 45) || (b =? 126).

Definition inb (x : N) (l : list N) : bool := existsb (N.eqb x) l.

(** The quoter of [quote_from_bytes]: a safe byte stands for itself, any
    other is [%XX] in upper-case hexadecimal.  (The shortcut of
    [quote_from_bytes] for an input of safe bytes only returns the same
    string as the quoter does.) *)
Definition quoter (safe : list N) (b : N) : pystr :=
  if always_safe b || inb b safe then [b]
  else [37; hex_upper (b / 16); hex_upper (b mod 16)].

Definition quote_from_bytes (bs : list N) (safe : list N) : pystr :=
  flat_map (quoter safe) bs.

(** [quote(string, safe)] with the default encoding and error mode. *)
Definition quote (string : pystr) (safe : list N) : outcome pystr :=
  match string with
  | [] => Returned []
  | _ =>
      match encode_utf8 string with
      | Returned bs => Returned (quote_from_bytes bs safe)
      | Raised e => Raised e
      end
  end.

(** [s.replace(old, new)] for one-character [old] and [new]. *)
Definition replace (old new : N) (s : pystr) : pystr :=
  map (fun c => if c =? old then new else c) s.

(** [quote_plus(string, safe='')]. *)
Definition quote_plus (string : pystr) : outcome pystr :=
  if negb (inb 32 string) then quote string []
  else
    match quote string [32] with
    | Returned r => Returned (replace 32 43 r)
    | Raised e => Raised e
    end.

(** ['&'.join(l)] and the like. *)
Fixpoint join (sep : pystr) (l : list pystr) : pystr :=
  match l with
  | [] => []
  | [x] => x
  | x :: rest => x ++ sep ++ join sep rest
  end.

(** The pairs [quote_plus(str(k)) + '=' + quote_plus(str(v))] of
    [urlencode], in the order of the dict. *)
Fixpoint urlencode_pairs (query : pydict) : outcome (list pystr) :=
  match query with
  | [] => Returned []
  | (k, v) :: rest =>
      match quote_plus k with
      | Raised e => Raised e
      | Returned k' =>
          match quote_plus (str v) with
          | Raised e => Raised e
          | Returned v' =>
              match urlencode_pairs rest with
              | Raised e => Raised e
              | Returned l => Returned ((k' ++ py "=" ++ v') :: l)
              end
          end
      end
  end.

Definition urlencode (query : pydict) : outcome pystr :=
  match urlencode_pairs query with
  | Returned l => Returned (join (py "&") l)
  | Raised e => Raised e
  end.

(* ===================================================================== *)
(** ** Session bootstrap (lines 26-55) *)
(* ===================================================================== *)

(** [os.getenv(key)]: the value, or [None] when the variable is unset. *)
Definition getenv (environ : gmap string pystr) (key : string) : pyval :=
  match environ !! key with
  | Some v => PyStr v
  | None => PyNone
  end.

(** [load_dotenv(override=...)]: the variables of the [.env] file enter
    the environment, over the ones already set only with [override]. *)
Definition load_dotenv (override : bool)
    (dotenv environ : gmap string pystr) : gmap string pystr :=
  if override then dotenv ∪ environ else environ ∪ dotenv.

(** Lines 36-42: the connection descriptor from what [os.getenv] gave. *)
Definition CORAL_SERVER_URL (base_url agent_id : pyval) : outcome pystr :=
  let coral_params :=
    [ (py "agentId", agent_id);
      (py "agentDescription",
       PyStr (py "An AI agent that generates Reddit posts with memory-enhanced personalization")) ] in
  match urlencode coral_params with
  | Raised e => Raised e
  | Returned query_string =>
      Returned (str base_url ++ py "?" ++ query_string)
  end.

Definition lift {A} (r : outcome A) : eff A := fun _ => ([], r).

Definition setup_mcp_tools (dotenv environ : gmap string pystr) : eff pyval :=
  let runtime := getenv environ "CORAL_ORCHESTRATION_RUNTIME" in
  let environ :=
    match runtime with
    | PyNone => load_dotenv true dotenv environ
    | _ => environ
    end in
  let base_url := getenv environ "CORAL_SSE_URL" in
  let agent_id := getenv environ "CORAL_AGENT_ID" in
  let* url := lift (CORAL_SERVER_URL base_url agent_id) in
  let* _ := perform (print (py "Connecting to Coral Server: " ++ url)) in
  let* _ := perform (logger_info (py "Connecting to Coral Server: " ++ url)) in
  let server_params :=
    [ (py "url", PyStr url);
      (py "timeout", PyInt 600);
      (py "sse_read_timeout", PyInt 600);
      (py "transport", PyStr (py "sse")) ] in
  let* mcp_server_adapter := perform (MCPServerAdapter server_params) in
  perform (adapter_tools mcp_server_adapter).



(* ===================================================================== *)
(** ** Vocabulary of the statements *)
(* ===================================================================== *)

(** The one-message transcript of a request: a single [dict] with the
    keys [role] and [content]. *)
Definition transcript (user_request : pystr) : list pydict :=
  [ [ (py "role", PyStr (py "user")); (py "content", PyStr user_request) ] ].

(** The calls of a trace, without their outcomes. *)
Definition calls (t : trace) : list call := map fst t.

(** The calls of the supervisor loop, by what they are for. *)
Definition cycle_start : call :=
  logger_info (py "Starting new Reddit post generation cycle").
Definition shutdown_notice : call :=
  logger_info (py "Received keyboard interrupt, shutting down gracefully...").
Definition error_report (e : exn) : call :=
  logger_error (py "Error in agent loop: " ++ exn_str e).

Definition is_kickoff (c : call) : bool :=
  match c with
  | crew_kickoff => true
  | _ => false
  end.

(** Every [crew.kickoff()] that returned is directly followed by the call
    [asyncio.sleep(1)]. *)
Fixpoint idles_after_success (t : trace) : bool :=
  match t with
  | [] => true
  | (crew_kickoff, Returned _) :: rest =>
      match rest with
      | (asyncio_sleep 1, _) :: _ => idles_after_success rest
      | _ => false
      end
  | _ :: rest => idles_after_success rest
  end.

(** The second query parameter of every descriptor: the fixed
    description, encoded. *)
Definition description_param : pystr :=
  py "&agentDescription=An+AI+agent+that+generates+Reddit+posts+with+memory-enhanced+personalization".

(** The [server_params] of the tool session for a descriptor. *)
Definition server_params_of (url : pystr) : pydict :=
  [ (py "url", PyStr url);
    (py "timeout", PyInt 600);
    (py "sse_read_timeout", PyInt 600);
    (py "transport", PyStr (py "sse")) ].

(** One byte of a form value as [application/x-www-form-urlencoded]
    writes it: an unreserved byte as itself, a space as [+], any other
    byte as [%XX]. *)
Definition form_byte (b : N) : pystr :=
  if always_safe b then [b]
  else if b =? 32 then [43]
  else [37; hex_upper (b / 16); hex_upper (b mod 16)].

(** The shapes of a UTF-8 sequence: the payload bits of a code point,
    six per continuation byte. *)
Inductive utf8_shape (c : N) : list N -> Prop :=
| utf8_1 : c < 128 -> utf8_shape c [c]
| utf8_2 x y :
    x < 32 -> y < 64 -> c = 64 * x + y -> 128 <= c ->
    utf8_shape c [192 + x; 128 + y]
| utf8_3 x y z :
    x < 16 -> y < 64 -> z < 64 -> c = 64 * (64 * x + y) + z -> 128 <= c ->
    utf8_shape c [224 + x; 128 + y; 128 + z]
| utf8_4 x y z u :
    x < 5 -> y < 64 -> z < 64 -> u < 64 ->
    c = 64 * (64 * (64 * x + y) + z) + u -> 128 <= c ->
    utf8_shape c [240 + x; 128 + y; 128 + z; 128 + u].

(* ===================================================================== *)
(** ** [main] (lines 95-188) *)
(* ===================================================================== *)

(** [os.environ] as lines 28-30 of [setup_mcp_tools] leave it: the
    [load_dotenv(override=True)] there changes the environment of the
    process, so the [os.getenv] of [main] sees it too. *)
Definition effective_environ (dotenv environ : gmap string pystr)
    : gmap string pystr :=
  match getenv environ "CORAL_ORCHESTRATION_RUNTIME" with
  | PyNone => load_dotenv true dotenv environ
  | _ => environ
  end.

(** The objects [main] builds before it enters the loop, with what it
    passes to build them.  [tools_add mcp_tools] is the list sum
    [mcp_tools + [store_user_request_in_mem0, search_mem0_memories]],
    which is the [__add__] of whatever [setup_mcp_tools] returned. *)
Inductive construction :=
| LLM (model base_url : pystr) (api_key : pyval)
| tools_add (mcp_tools : pyval)
| Agent (role goal backstory : pystr) (llm tools : pyval) (verbose : bool)
| Task (description expected_output : pystr) (agent : pyval)
| Crew (agents tasks : list pyval) (verbose : bool).

(** The libraries answer a construction with the object or by raising. *)
Definition builder := construction -> outcome pyval.

(** What [main] did, in order: a call with its outcome, or a
    construction with its outcome. *)
Inductive main_event :=
| Called (ev : event)
| Built (c : construction) (r : outcome pyval).

Definition construct {A} (build : builder) (c : construction)
    (k : pyval -> list main_event * outcome A)
    : list main_event * outcome A :=
  match build c with
  | Raised e => ([Built c (Raised e)], Raised e)
  | Returned v => let (t, r) := k v in (Built c (Returned v) :: t, r)
  end.

Definition AGENT_ROLE : pystr := py "AI Reddit Content Specialist".
Definition AGENT_GOAL : pystr :=
  py "Generate engaging Reddit posts based on user's personality and preferences".
Definition AGENT_BACKSTORY : pystr :=
  py "You are a specialized content creator focused on generating Reddit posts. 
        You excel at understanding users' personalities, writing styles, and preferences through 
        conversations. You're particularly skilled at matching content style and tone to each 
        user's unique characteristics, creating posts that would resonate with their target audience.".
Definition TASK_DESCRIPTION : pystr :=
  py "
        Primary Task: Mention Monitoring and Response

        Step 1: Wait For Mentions
        - ALWAYS start by calling wait_for_mentions tool
        - Keep calling it until you receive a mention
        - Do not proceed to other tasks and do not call any other tools without a mention
        - Record threadId and senderId when mentioned
        
        Step 2: Process Mention
        - Analyze the message content carefully
        - Store the request in memory using store_user_request_in_mem0 tool
        - Search for relevant context using search_mem0_memories tool
        - Generate 5 complete, publication-ready Reddit posts based on the request and memory context
        
        CRITICAL: YOU MUST SEND THE GENERATED POSTS
        - IMMEDIATELY use send_message tool to send the generated posts back to the requesting agent
        - Format the message clearly with all 5 posts
        - Include the threadId from the mention to maintain conversation context
        - Verify the message was sent successfully
        - Only then continue to monitor for new mentions
        
        For each post in your response, provide:
        - Title: An engaging, attention-grabbing title
        - Content: The complete post content
        - Keywords: Relevant hashtags and key terms
        
        IMPORTANT: 
        - You MUST send ALL generated posts using send_message tool
        - Do NOT proceed without sending the posts
        - After sending, resume monitoring with wait_for_mentions tool
        ".
Definition TASK_EXPECTED_OUTPUT : pystr :=
  py "Process and respond to mentions by:
        1. Generating exactly 5 complete, publication-ready posts with:
           * Engaging title
           * Complete, well-structured content with intro, body, and conclusion
           * Relevant keywords and hashtags
        2. MUST use send_message tool to:
           * Send all generated posts back to the requesting agent
           * Include proper threadId for conversation context
           * Format message clearly and readably
        3. Verify message sending success before continuing
        4. Return to monitoring for new mentions".

(** Lines 100-108: the LLM client, with the failure logged and raised
    again. *)
Definition new_llm (environ : gmap string pystr) : construction :=
  LLM (py "openrouter/openai/gpt-4.1-mini") (py "https://openrouter.ai/api/v1")
      (getenv environ "OPENROUTER_API_KEY").

Definition llm_failure (e : exn) : call :=
  logger_error (py "Failed to initialize LLM: " ++ exn_str e).

(** Lines 110-176: agent, task and crew. *)
Definition assemble (build : builder) (mcp_tools llm : pyval)
    : list main_event * outcome pyval :=
  construct build (tools_add mcp_tools) (fun tools =>
  construct build
    (Agent AGENT_ROLE AGENT_GOAL AGENT_BACKSTORY llm tools true)
    (fun reddit_agent =>
  construct build
    (Task TASK_DESCRIPTION TASK_EXPECTED_OUTPUT reddit_agent)
    (fun post_task =>
  construct build (Crew [reddit_agent] [post_task] true)
    (fun crew => ([], Returned crew))))).

(** [main], with the loop cut after [fuel] iterations.  The world [w0]
    answers the calls made before the loop, [build] the constructions,
    and [w i] the calls of iteration [i]. *)
Definition main (fuel : nat) (dotenv environ : gmap string pystr)
    (w0 : world) (build : builder) (w : nat -> world)
    : list main_event * status :=
  match setup_mcp_tools dotenv environ w0 with
  | (t0, Raised e) => (map Called t0, Propagated e)
  | (t0, Returned mcp_tools) =>
      let llm_call := new_llm (effective_environ dotenv environ) in
      match build llm_call with
      | Raised e =>
          if isinstance e Exception then
            (map Called t0
               ++ [Built llm_call (Raised e);
                   Called (llm_failure e, w0 (llm_failure e))],
             match w0 (llm_failure e) with
             | Returned _ => Propagated e
             | Raised e' => Propagated e'
             end)
          else (map Called t0 ++ [Built llm_call (Raised e)], Propagated e)
      | Returned llm =>
          match assemble build mcp_tools llm with
          | (t1, Raised e) =>
              (map Called t0 ++ Built llm_call (Returned llm) :: t1,
               Propagated e)
          | (t1, Returned crew) =>
              let (t, s) := main_loop fuel w 0 in
              (map Called t0 ++ Built llm_call (Returned llm) :: t1
                 ++ map Called t, s)
          end
      end
  end.

(* ===================================================================== *)
(** ** Vocabulary of the further statements *)
(* ===================================================================== *)

(** Lines 43-55 of [setup_mcp_tools], once the descriptor is built. *)
Definition connect (url : pystr) : eff pyval :=
  let* _ := perform (print (py "Connecting to Coral Server: " ++ url)) in
  let* _ := perform (logger_info (py "Connecting to Coral Server: " ++ url)) in
  let* mcp_server_adapter := perform (MCPServerAdapter (server_params_of url)) in
  perform (adapter_tools mcp_server_adapter).

(** The calls of the body of the [try]. *)
Definition in_try (c : call) : bool :=
  match c with
  | logger_info m =>
      pystr_eqb m (py "Starting new Reddit post generation cycle")
  | crew_kickoff => true
  | asyncio_sleep 1 => true
  | _ => false
  end.

(** What the body of the [try] did against [w]: the calls it made, and
    the exception that cut it short, if one did. *)
Inductive tried (w : world) : trace -> option exn -> Prop :=
| tried_start e :
    w cycle_start = Raised e ->
    tried w [(cycle_start, Raised e)] (Some e)
| tried_kickoff a e :
    w cycle_start = Returned a -> w crew_kickoff = Raised e ->
    tried w [(cycle_start, Returned a); (crew_kickoff, Raised e)] (Some e)
| tried_idle a b e :
    w cycle_start = Returned a -> w crew_kickoff = Returned b ->
    w (asyncio_sleep 1) = Raised e ->
    tried w [(cycle_start, Returned a); (crew_kickoff, Returned b);
             (asyncio_sleep 1, Raised e)] (Some e)
| tried_done a b c :
    w cycle_start = Returned a -> w crew_kickoff = Returned b ->
    w (asyncio_sleep 1) = Returned c ->
    tried w [(cycle_start, Returned a); (crew_kickoff, Returned b);
             (asyncio_sleep 1, Returned c)] None.

(** What the [except] clauses did with [e] against [w]. *)
Inductive handled (w : world) (e : exn) : trace -> outcome ctrl -> Prop :=
| handled_break v :
    isinstance e KeyboardInterrupt = true ->
    w shutdown_notice = Returned v ->
    handled w e [(shutdown_notice, Returned v)] (Returned Break)
| handled_break_failed e' :
    isinstance e KeyboardInterrupt = true ->
    w shutdown_notice = Raised e' ->
    handled w e [(shutdown_notice, Raised e')] (Raised e')
| handled_report_failed e' :
    isinstance e KeyboardInterrupt = false ->
    isinstance e Exception = true ->
    w (error_report e) = Raised e' ->
    handled w e [(error_report e, Raised e')] (Raised e')
| handled_backoff_failed v e' :
    isinstance e KeyboardInterrupt = false ->
    isinstance e Exception = true ->
    w (error_report e) = Returned v ->
    w (asyncio_sleep 5) = Raised e' ->
    handled w e [(error_report e, Returned v); (asyncio_sleep 5, Raised e')]
      (Raised e')
| handled_retry v d :
    isinstance e KeyboardInterrupt = false ->
    isinstance e Exception = true ->
    w (error_report e) = Returned v ->
    w (asyncio_sleep 5) = Returned d ->
    handled w e [(error_report e, Returned v); (asyncio_sleep 5, Returned d)]
      (Returned Continue)
| handled_not :
    isinstance e KeyboardInterrupt = false ->
    isinstance e Exception = false ->
    handled w e [] (Raised e).

(** One pass through the body of the loop, by its path. *)
Inductive passed (w : world) : trace -> outcome ctrl -> Prop :=
| passed_done t :
    tried w t None -> passed w t (Returned Continue)
| passed_handled t e t' r :
    tried w t (Some e) -> handled w e t' r -> passed w (t ++ t') r.

(** A rule says, for an event, what the next call has to be, when it
    says anything; a trace obeys it when every such event has a next
    call and that call is as the rule says. *)
Fixpoint obeys (rule : event -> option (call -> bool)) (t : trace) : bool :=
  match t with
  | [] => true
  | ev :: rest =>
      match rule ev with
      | None => obeys rule rest
      | Some next =>
          match rest with
          | [] => false
          | (c, _) :: _ => next c && obeys rule rest
          end
      end
  end.

Definition is_backoff_sleep (c : call) : bool :=
  match c with
  | asyncio_sleep 5 => true
  | _ => false
  end.

Definition is_shutdown_notice (c : call) : bool :=
  match c with
  | logger_info m =>
      pystr_eqb m
        (py "Received keyboard interrupt, shutting down gracefully...")
  | _ => false
  end.

Definition is_error_report (e : exn) (c : call) : bool :=
  match c with
  | logger_error m => pystr_eqb m (py "Error in agent loop: " ++ exn_str e)
  | _ => false
  end.

(** The order of the calls of the loop, as a rule: the start of a cycle
    is followed by the task runner and the task runner by the idle delay;
    a call of the [try] that raised is followed by the shutdown message
    for an interrupt and by the error report for an [Exception]; the error
    report is followed by the back-off delay. *)
Definition loop_rule (ev : event) : option (call -> bool) :=
  match ev with
  | (logger_info m, Returned _) =>
      if pystr_eqb m (py "Starting new Reddit post generation cycle")
      then Some is_kickoff else None
  | (crew_kickoff, Returned _) =>
      Some (fun c => match c with asyncio_sleep 1 => true | _ => false end)
  | (logger_error _, Returned _) => Some is_backoff_sleep
  | (c, Raised e) =>
      if in_try c then
        if isinstance e KeyboardInterrupt then Some is_shutdown_notice
        else if isinstance e Exception then Some (is_error_report e)
        else None
      else None
  | _ => None
  end.

(** The only calls the loop makes. *)
Definition loop_call (c : call) : Prop :=
  c = cycle_start \/ c = crew_kickoff \/ c = asyncio_sleep 1
  \/ c = shutdown_notice \/ (exists e, c = error_report e)
  \/ c = asyncio_sleep 5.

(** The calls of a [main_event] trace that are the task runner. *)
Definition is_kickoff_event (ev : main_event) : bool :=
  match ev with
  | Called (c, _) => is_kickoff c
  | Built _ _ => false
  end.

Definition is_crew_built (ev : main_event) : bool :=
  match ev with
  | Built (Crew _ _ _) (Returned _) => true
  | _ => false
  end.

(* ===================================================================== *)
(** ** Interrupts under [asyncio.run], and what a URL-encoded value is *)
(* ===================================================================== *)

(** Line 191 runs [main] with [asyncio.run].  An interrupt signal that
    arrives while the coroutine is suspended in [await asyncio.sleep(d)]
    does not raise [KeyboardInterrupt] inside the coroutine: the event
    loop cancels the task of [main], and the [await] raises
    [asyncio.CancelledError()], whose [str()] is empty. *)
Definition cancelled : exn := mk_exn CancelledError [].

(** The Unicode scalar values: every code point but the surrogates. *)
Definition scalar (c : N) : Prop :=
  c < 0xD800 \/ (0xDFFF < c /\ c < 0x110000).

(** A continuation byte of UTF-8, [10xxxxxx]. *)
Definition continuation (b : N) : bool := (0x80 <=? b) && (b <? 0xC0).

(** Strict UTF-8 decoding as RFC 3629 defines it, written independently
    of the encoder: the first byte gives the length of a sequence; an
    overlong sequence, a surrogate, a value above 0x10FFFF, a stray or
    missing continuation byte make the input undecodable. *)
Fixpoint decode_utf8 (bs : list N) : option pystr :=
  match bs with
  | [] => Some []
  | b0 :: r0 =>
      if b0 <? 0x80 then option_map (cons b0) (decode_utf8 r0)
      else if b0 <? 0xC2 then None
      else if b0 <? 0xE0 then
        match r0 with
        | b1 :: r1 =>
            if continuation b1
            then option_map (cons ((b0 - 0xC0) * 64 + (b1 - 0x80)))
                   (decode_utf8 r1)
            else None
        | _ => None
        end
      else if b0 <? 0xF0 then
        match r0 with
        | b1 :: b2 :: r2 =>
            let c := ((b0 - 0xE0) * 64 + (b1 - 0x80)) * 64 + (b2 - 0x80) in
            if continuation b1 && continuation b2
               && negb (c <? 0x800) && negb (is_surrogate c)
            then option_map (cons c) (decode_utf8 r2)
            else None
        | _ => None
        end
      else if b0 <? 0xF5 then
        match r0 with
        | b1 :: b2 :: b3 :: r3 =>
            let c := (((b0 - 0xF0) * 64 + (b1 - 0x80)) * 64 + (b2 - 0x80)) * 64
                     + (b3 - 0x80) in
            if continuation b1 && continuation b2 && continuation b3
               && negb (c <? 0x10000) && (c <? 0x110000)
            then option_map (cons c) (decode_utf8 r3)
            else None
        | _ => None
        end
      else None
  end.

(** What [os.getenv] gives for a variable, by whether it is set. *)
Definition env_value (o : option pystr) : pyval :=
  match o with
  | Some v => PyStr v
  | None => PyNone
  end.

(** Two states of a variable that differ only in that one is unset and
    the other is set to the text [None]. *)
Definition unset_or_None_text (o1 o2 : option pystr) : Prop :=
  (o1 = None /\ o2 = Some (py "None"))
  \/ (o1 = Some (py "None") /\ o2 = None).

(** The unreserved characters of a URL and the digits of [%XX]. *)
Definition UNRESERVED : pystr :=
  py "ABCDEFGHIJKLMNOPQRSTUVWXYZabcdefghijklmnopqrstuvwxyz0123456789_.-~".
Definition HEX_DIGITS : pystr := py "0123456789ABCDEF".

(** A byte as a URL-encoded query value writes it: an unreserved
    character as itself, a space as [+], any other byte as [%] and its
    two hexadecimal digits. *)
Definition percent_byte (b : N) : pystr :=
  if inb b UNRESERVED then [b]
  else if b =? 32 then py "+"
  else py "%" ++ [ nth (N.to_nat (b / 16)) HEX_DIGITS 0;
                   nth (N.to_nat (b mod 16)) HEX_DIGITS 0 ].


(* ===================================================================== *)
(** ** Worlds and exceptions of the examples *)
(* ===================================================================== *)

(** [ConnectionError("down")]. *)
Definition ConnectionError_down : exn :=
  mk_exn (ExceptionSubclass "ConnectionError") (py "down").

(** [KeyboardInterrupt()], whose [str()] is empty. *)
Definition interrupt : exn := mk_exn KeyboardInterrupt [].

(** [SystemExit(1)]. *)
Definition SystemExit_1 : exn := mk_exn SystemExit (py "1").

(** [TimeoutError("timed out")]. *)
Definition TimeoutError_timed_out : exn :=
  mk_exn (ExceptionSubclass "TimeoutError") (py "timed out").

(** Every call returns [None]. *)
Definition world_quiet : world := fun _ => Returned PyNone.

(** The memory service is unreachable: every call raises
    [ConnectionError("down")]. *)
Definition world_down : world := fun _ => Raised ConnectionError_down.

(** The user presses Ctrl-C during whatever call is made. *)
Definition world_interrupted : world := fun _ => Raised interrupt.

(** The worlds of a run in which the call [c] of iteration [n] raises [e]
    and every other call of every iteration returns [None]. *)
Definition raising_at (n : nat) (c : call -> bool) (e : exn) : nat -> world :=
  fun i call => if (i =? n)%nat && c call then Raised e else Returned PyNone.

Definition is_idle_sleep (c : call) : bool :=
  match c with
  | asyncio_sleep 1 => true
  | _ => false
  end.

Definition is_cycle_start (c : call) : bool :=
  match c with
  | logger_info m =>
      pystr_eqb m (py "Starting new Reddit post generation cycle")
  | _ => false
  end.

(* ===================================================================== *)
(** * Properties *)
(* ===================================================================== *)

(** ** Strings *)

Lemma startswith_spec (s p : pystr) :
  startswith s p = true <-> exists post, s = p ++ post.
Proof.
  revert s; induction p as [|x p IH]; intros s; simpl.
  - split; [intros _; exists s; reflexivity | reflexivity].
  - destruct s as [|y s]; simpl.
    + split; [discriminate | intros [post H]; discriminate].
    + rewrite andb_true_iff, N.eqb_eq, IH. split.
      * intros [-> [post ->]]. exists post. reflexivity.
      * intros [post H]. injection H as -> ->. split; [reflexivity | eauto].
Qed.

Lemma containsb_spec (s sub : pystr) :
  containsb s sub = true <-> contains s sub.
Proof.
  unfold contains. induction s as [|y s IH].
  - simpl. rewrite orb_false_r, startswith_spec. split.
    + intros [post H]. exists [], post. exact H.
    + intros [pre [post H]]. destruct pre; [|discriminate].
      exists post. exact H.
  - cbn [containsb]. rewrite orb_true_iff, startswith_spec, IH. split.
    + intros [[post H] | [pre [post H]]].
      * exists [], post. exact H.
      * exists (y :: pre), post. rewrite H. reflexivity.
    + intros [pre [post H]]. destruct pre as [|z pre].
      * left. exists post. exact H.
      * right. injection H as -> ->. eauto.
Qed.

Lemma contains_In (s sub : pystr) (c : N) :
  contains s sub -> In c sub -> In c s.
Proof.
  intros [pre [post ->]] H. apply in_or_app. right.
  apply in_or_app. left. exact H.
Qed.

Lemma contains_middle (pre sub post : pystr) : contains (pre ++ sub ++ post) sub.
Proof. exists pre, post. reflexivity. Qed.

Lemma contains_end (pre sub : pystr) : contains (pre ++ sub) sub.
Proof. exists pre, []. rewrite app_nil_r. reflexivity. Qed.

(** ** Exception classes *)

Lemma Exception_not_KeyboardInterrupt (e : exn) :
  isinstance e Exception = true -> isinstance e KeyboardInterrupt = false.
Proof. unfold isinstance. destruct (exn_cls e); simpl; congruence. Qed.

Lemma isinstance_KeyboardInterrupt (e : exn) :
  isinstance e KeyboardInterrupt = true <-> exn_cls e = KeyboardInterrupt.
Proof.
  unfold isinstance. destruct (exn_cls e); simpl; split; congruence.
Qed.

(** ** Memory gateway *)

Section Gateway.
Variable w : world.

Lemma store_returned (user_request : pystr) (result : pyval) :
  w (client_add (transcript user_request) (py "reddit_user")) = Returned result ->
  snd (store_user_request_in_mem0 user_request w)
  = Returned (SPARKLES ++ py " Successfully stored user request in memory: "
                ++ slice_to 50 user_request ++ py "...").
Proof.
  intros H. cbv [store_user_request_in_mem0 try_except bind perform ret].
  unfold transcript in H. rewrite H. reflexivity.
Qed.

Lemma store_raised (user_request : pystr) (e : exn) :
  w (client_add (transcript user_request) (py "reddit_user")) = Raised e ->
  snd (store_user_request_in_mem0 user_request w)
  = if isinstance e Exception
    then Returned (CROSS_MARK ++ py " Error storing in memory: " ++ exn_str e)
    else Raised e.
Proof.
  intros H. cbv [store_user_request_in_mem0 try_except bind perform ret dispatch].
  unfold transcript in H. rewrite H.
  destruct (isinstance e Exception); reflexivity.
Qed.

Lemma search_raised (query : pystr) (e : exn) :
  w (client_search query (py "reddit_user")) = Raised e ->
  snd (search_mem0_memories query w)
  = if isinstance e Exception
    then Returned (MAGNIFIER ++ py " Error searching memories: " ++ exn_str e)
    else Raised e.
Proof.
  intros H. cbv [search_mem0_memories try_except bind perform ret dispatch].
  rewrite H. destruct (isinstance e Exception); reflexivity.
Qed.
End Gateway.

(** C1, as the code has it.  When the client call of
    [store_user_request_in_mem0] or of [search_mem0_memories] raises an
    instance of [Exception], the tool returns a string: it holds the word
    Error after its marker and the text [str(e)] of the exception, and
    nothing propagates. *)
Theorem gateway_Exception_becomes_string (w : world) (e : exn) :
  isinstance e Exception = true ->
  (forall user_request,
      w (client_add (transcript user_request) (py "reddit_user")) = Raised e ->
      exists s,
        snd (store_user_request_in_mem0 user_request w) = Returned s
        /\ s = CROSS_MARK ++ py " Error storing in memory: " ++ exn_str e
        /\ contains s (py "Error") /\ contains s (exn_str e))
  /\ (forall query,
      w (client_search query (py "reddit_user")) = Raised e ->
      exists s,
        snd (search_mem0_memories query w) = Returned s
        /\ s = MAGNIFIER ++ py " Error searching memories: " ++ exn_str e
        /\ contains s (py "Error") /\ contains s (exn_str e)).
Proof.
  intros He. split.
  - intros user_request H. eexists. split; [|split; [reflexivity|]].
    + rewrite (store_raised w _ _ H), He. reflexivity.
    + split.
      * exists (CROSS_MARK ++ py " "), (py " storing in memory: " ++ exn_str e).
        reflexivity.
      * rewrite app_assoc. apply contains_end.
  - intros query H. eexists. split; [|split; [reflexivity|]].
    + rewrite (search_raised w _ _ H), He. reflexivity.
    + split.
      * exists (MAGNIFIER ++ py " "), (py " searching memories: " ++ exn_str e).
        reflexivity.
      * rewrite app_assoc. apply contains_end.
Qed.

(** [record("hello")] and [recall("hello")] against a client that raises
    [ConnectionError("down")]. *)
Lemma gateway_Exception_becomes_string_down :
  isinstance ConnectionError_down Exception = true
  /\ (exists s,
        snd (store_user_request_in_mem0 (py "hello") world_down) = Returned s
        /\ s = CROSS_MARK ++ py " Error storing in memory: " ++ py "down"
        /\ contains s (py "Error") /\ contains s (py "down"))
  /\ (exists s,
        snd (search_mem0_memories (py "hello") world_down) = Returned s
        /\ s = MAGNIFIER ++ py " Error searching memories: " ++ py "down"
        /\ contains s (py "Error") /\ contains s (py "down")).
Proof.
  split; [reflexivity|].
  destruct (gateway_Exception_becomes_string world_down ConnectionError_down)
    as [Hstore Hsearch]; [reflexivity|].
  split.
  - apply (Hstore (py "hello")). reflexivity.
  - apply (Hsearch (py "hello")). reflexivity.
Defined.

(** Counterexample to C1 as stated: a [KeyboardInterrupt] raised by the client is an
    exception that neither tool turns into a string; it reaches the
    caller. *)
Lemma gateway_KeyboardInterrupt_propagates :
  world_interrupted (client_add (transcript (py "hello")) (py "reddit_user"))
  = Raised interrupt
  /\ snd (store_user_request_in_mem0 (py "hello") world_interrupted)
     = Raised interrupt
  /\ world_interrupted (client_search (py "hello") (py "reddit_user"))
     = Raised interrupt
  /\ snd (search_mem0_memories (py "hello") world_interrupted)
     = Raised interrupt.
Proof. repeat split. Qed.

(** C3, as the code has it.  When the call [client.add] returns, the
    result of [store_user_request_in_mem0] is the success marker, then
    [user_request[:50]], then three dots; [user_request[:50]] is the prefix
    of the request of length [min 50 (len user_request)]. *)
Theorem store_success_shows_prefix (w : world) (user_request : pystr)
    (result : pyval) :
  w (client_add (transcript user_request) (py "reddit_user")) = Returned result ->
  exists s,
    snd (store_user_request_in_mem0 user_request w) = Returned s
    /\ s = SPARKLES ++ py " Successfully stored user request in memory: "
             ++ slice_to 50 user_request ++ py "..."
    /\ contains s (slice_to 50 user_request)
    /\ (exists rest, user_request = slice_to 50 user_request ++ rest)
    /\ length (slice_to 50 user_request) = Nat.min 50 (length user_request).
Proof.
  intros H. eexists. split; [apply (store_returned w _ _ H)|].
  split; [reflexivity|]. split; [|split].
  - rewrite app_assoc. apply contains_middle.
  - exists (skipn 50 user_request). unfold slice_to.
    symmetry. apply firstn_skipn.
  - unfold slice_to. apply length_firstn.
Qed.

(** A request of 60 characters, stored by a client that answers: the
    first 50 are shown. *)
Lemma store_success_shows_prefix_60 :
  world_quiet (client_add (transcript (repeat 97 60)) (py "reddit_user"))
  = Returned PyNone
  /\ exists s,
    snd (store_user_request_in_mem0 (repeat 97 60) world_quiet) = Returned s
    /\ s = SPARKLES ++ py " Successfully stored user request in memory: "
             ++ slice_to 50 (repeat 97 60) ++ py "..."
    /\ contains s (slice_to 50 (repeat 97 60))
    /\ (exists rest, repeat 97 60 = slice_to 50 (repeat 97 60) ++ rest)
    /\ length (slice_to 50 (repeat 97 60)) = Nat.min 50 (length (repeat 97 60)).
Proof.
  split; [reflexivity|].
  apply (store_success_shows_prefix world_quiet (repeat 97 60) PyNone).
  reflexivity.
Defined.

(** Counterexample to C3 as stated: with a client that raises
    [ConnectionError("down")], [store_user_request_in_mem0("hello")] does
    not throw, and the string it returns holds neither ["hello"[:50]] nor
    any other non-empty prefix of the request. *)
Lemma store_failure_lacks_prefix :
  exists s,
    snd (store_user_request_in_mem0 (py "hello") world_down) = Returned s
    /\ ~ contains s (slice_to 50 (py "hello"))
    /\ forall p rest, p <> [] -> py "hello" = p ++ rest -> ~ contains s p.
Proof.
  eexists. split; [reflexivity|]. split.
  - rewrite <- containsb_spec. vm_compute. discriminate.
  - intros p rest Hp Heq Hc. destruct p as [|c p]; [congruence|].
    change (py "hello") with [104; 101; 108; 108; 111] in Heq.
    injection Heq as <- _.
    apply (contains_In _ _ 104) in Hc as Hin; [|left; reflexivity].
    vm_compute in Hin. intuition discriminate.
Qed.

(** C7.  Whatever the request, the query and the answers of the client,
    [store_user_request_in_mem0] makes one call, [client.add] with the
    single message [{role: user, content: request}], and
    [search_mem0_memories] makes one call, [client.search] with the query;
    both pass the same constant [user_id]. *)
Theorem gateway_calls_same_user :
  exists user_id : pystr,
    user_id = py "reddit_user"
    /\ forall (w : world) (user_request query : pystr),
      calls (fst (store_user_request_in_mem0 user_request w))
      = [ client_add
            [ [ (py "role", PyStr (py "user"));
                (py "content", PyStr user_request) ] ] user_id ]
      /\ calls (fst (search_mem0_memories query w))
         = [ client_search query user_id ].
Proof.
  eexists. split; [reflexivity|]. intros w user_request query. split.
  - cbv [store_user_request_in_mem0 try_except bind perform ret dispatch].
    destruct (w _) as [r|e]; [reflexivity|].
    destruct (isinstance e Exception); reflexivity.
  - cbv [search_mem0_memories try_except bind perform ret dispatch].
    destruct (w _) as [r|e]; [reflexivity|].
    destruct (isinstance e Exception); reflexivity.
Qed.

(** ** Supervisor loop: one iteration *)

Lemma cycle_unfold (w : world) :
  cycle w =
  match w cycle_start with
  | Raised e => ([(cycle_start, Raised e)], Raised e)
  | Returned a =>
      match w crew_kickoff with
      | Raised e =>
          ([(cycle_start, Returned a); (crew_kickoff, Raised e)], Raised e)
      | Returned b =>
          match w (asyncio_sleep 1) with
          | Raised e =>
              ([(cycle_start, Returned a); (crew_kickoff, Returned b);
                (asyncio_sleep 1, Raised e)], Raised e)
          | Returned c =>
              ([(cycle_start, Returned a); (crew_kickoff, Returned b);
                (asyncio_sleep 1, Returned c)], Returned Continue)
          end
      end
  end.
Proof.
  cbv [cycle bind perform ret cycle_start].
  destruct (w (logger_info _)); [|reflexivity].
  destruct (w crew_kickoff); [|reflexivity].
  destruct (w (asyncio_sleep 1)); reflexivity.
Qed.

Lemma dispatch_handlers (e : exn) (w : world) :
  dispatch handlers e w =
  if isinstance e KeyboardInterrupt then
    match w shutdown_notice with
    | Returned v => ([(shutdown_notice, Returned v)], Returned Break)
    | Raised e' => ([(shutdown_notice, Raised e')], Raised e')
    end
  else if isinstance e Exception then
    match w (error_report e) with
    | Raised e' => ([(error_report e, Raised e')], Raised e')
    | Returned v =>
        match w (asyncio_sleep 5) with
        | Raised e' =>
            ([(error_report e, Returned v); (asyncio_sleep 5, Raised e')],
             Raised e')
        | Returned v' =>
            ([(error_report e, Returned v); (asyncio_sleep 5, Returned v')],
             Returned Continue)
        end
    end
  else ([], Raised e).
Proof.
  cbv [handlers dispatch bind perform ret shutdown_notice error_report raise].
  destruct (isinstance e KeyboardInterrupt).
  - destruct (w (logger_info _)); reflexivity.
  - destruct (isinstance e Exception); [|reflexivity].
    destruct (w (logger_error _)); [|reflexivity].
    destruct (w (asyncio_sleep 5)); reflexivity.
Qed.

Lemma loop_body_unfold (w : world) :
  loop_body w =
  match cycle w with
  | (t, Returned c) => (t, Returned c)
  | (t, Raised e) => let (t', r) := dispatch handlers e w in (t ++ t', r)
  end.
Proof. reflexivity. Qed.

(** ** Supervisor loop: runs *)

Lemma main_loop_S (fuel : nat) (w : nat -> world) (i : nat) :
  main_loop (S fuel) w i =
  match loop_body (w i) with
  | (t, Returned Continue) =>
      let (t', s) := main_loop fuel w (S i) in (t ++ t', s)
  | (t, Returned Break) => (t, Stopped)
  | (t, Raised e) => (t, Propagated e)
  end.
Proof. reflexivity. Qed.

(** A run of [a + b] iterations is the run of the first [a], continued,
    when it is still looping, by the run of the next [b]. *)
Lemma main_loop_app (a b : nat) (w : nat -> world) (i : nat) :
  main_loop (a + b) w i =
  match main_loop a w i with
  | (t, Running) =>
      (t ++ fst (main_loop b w (i + a)), snd (main_loop b w (i + a)))
  | r => r
  end.
Proof.
  revert i; induction a as [|a IH]; intros i.
  - simpl. rewrite Nat.add_0_r. destruct (main_loop b w i); reflexivity.
  - change (S a + b)%nat with (S (a + b)). rewrite !main_loop_S.
    destruct (loop_body (w i)) as [t [[|]|e]]; try reflexivity.
    rewrite IH. replace (S i + a)%nat with (i + S a)%nat by lia.
    destruct (main_loop a w (S i)) as [t' [| |e']]; try reflexivity.
    simpl. rewrite app_assoc. reflexivity.
Qed.

(** Once the loop has stopped or let an exception through, more
    iterations change nothing. *)
Lemma main_loop_settled (a b : nat) (w : nat -> world) (i : nat) :
  snd (main_loop a w i) <> Running ->
  main_loop (a + b) w i = main_loop a w i.
Proof.
  intros H. rewrite main_loop_app.
  destruct (main_loop a w i) as [t [| |e]]; simpl in *; congruence.
Qed.

(** ** Supervisor loop: the idle delay *)

Lemma idles_after_success_loop_body (w : world) (t' : trace) :
  idles_after_success (fst (loop_body w) ++ t') = idles_after_success t'.
Proof.
  rewrite loop_body_unfold, cycle_unfold.
  destruct (w cycle_start) as [a|e];
    [destruct (w crew_kickoff) as [b|e];
     [destruct (w (asyncio_sleep 1)) as [c|e]; [reflexivity|]|]|];
    rewrite dispatch_handlers;
    (destruct (isinstance e KeyboardInterrupt);
     [destruct (w shutdown_notice); reflexivity|]);
    (destruct (isinstance e Exception); [|reflexivity]);
    (destruct (w (error_report e)); [|reflexivity]);
    destruct (w (asyncio_sleep 5)); reflexivity.
Qed.

Lemma main_loop_idles (fuel : nat) (w : nat -> world) (i : nat) :
  idles_after_success (fst (main_loop fuel w i)) = true.
Proof.
  revert i; induction fuel as [|fuel IH]; intros i; [reflexivity|].
  rewrite main_loop_S.
  pose proof (idles_after_success_loop_body (w i)) as Hbody.
  destruct (loop_body (w i)) as [t [[|]|e]]; simpl in Hbody.
  - specialize (IH (S i)). destruct (main_loop fuel w (S i)) as [t' s].
    simpl in *. rewrite Hbody. exact IH.
  - simpl. rewrite <- (app_nil_r t), Hbody. reflexivity.
  - simpl. rewrite <- (app_nil_r t), Hbody. reflexivity.
Qed.

Lemma idles_after_success_spec (t : trace) :
  idles_after_success t = true ->
  forall pre r post,
    t = pre ++ (crew_kickoff, Returned r) :: post ->
    exists o post', post = (asyncio_sleep 1, o) :: post'.
Proof.
  intros Ht pre; revert t Ht; induction pre as [|ev pre IH];
    intros t Ht r post ->.
  - simpl in Ht. destruct post as [|[[] o] post']; try discriminate.
    destruct delay as [|[]]; try discriminate. eauto.
  - refine (IH (pre ++ (crew_kickoff, Returned r) :: post) _ r post eq_refl).
    simpl in Ht. destruct ev as [[] []]; try exact Ht.
    destruct (pre ++ (crew_kickoff, Returned r) :: post) as [|[[] o] rest];
      try discriminate.
    destruct delay as [|[]]; try discriminate. exact Ht.
Qed.

(** C8.  In every run of the loop, whatever the calls answer, a
    [crew.kickoff()] that returned is directly followed by the call
    [asyncio.sleep(1)]: the loop sleeps the idle delay before anything
    else, so before the next cycle starts. *)
Theorem idle_delay_after_success (fuel : nat) (w : nat -> world) (i : nat)
    (pre post : trace) (r : pyval) :
  fst (main_loop fuel w i) = pre ++ (crew_kickoff, Returned r) :: post ->
  exists o post', post = (asyncio_sleep 1, o) :: post'.
Proof.
  intros H.
  exact (idles_after_success_spec _ (main_loop_idles fuel w i) pre r post H).
Qed.

(** Two quiet iterations: the first successful cycle is followed by the
    idle delay and then by the start of the second cycle. *)
Lemma idle_delay_after_success_quiet :
  fst (main_loop 2 (fun _ => world_quiet) 0)
  = [(cycle_start, Returned PyNone)]
      ++ (crew_kickoff, Returned PyNone)
      :: [(asyncio_sleep 1, Returned PyNone);
          (cycle_start, Returned PyNone);
          (crew_kickoff, Returned PyNone);
          (asyncio_sleep 1, Returned PyNone)]
  /\ exists o post',
      [(asyncio_sleep 1, Returned PyNone);
       (cycle_start, Returned PyNone);
       (crew_kickoff, Returned PyNone);
       (asyncio_sleep 1, Returned PyNone)] = (asyncio_sleep 1, o) :: post'.
Proof.
  split; [reflexivity|].
  apply (idle_delay_after_success 2 (fun _ => world_quiet) 0
           [(cycle_start, Returned PyNone)] _ PyNone).
  reflexivity.
Defined.

(** ** Supervisor loop: interrupts *)

Lemma main_loop_next (k m : nat) (w : nat -> world) (t : trace) :
  main_loop k w 0 = (t, Running) ->
  snd (loop_body (w k)) <> Returned Continue ->
  main_loop (S k + m) w 0 =
  (t ++ fst (loop_body (w k)),
   match snd (loop_body (w k)) with
   | Returned Continue => Running
   | Returned Break => Stopped
   | Raised e => Propagated e
   end).
Proof.
  intros Hk Hbody.
  replace (S k + m)%nat with (k + S m)%nat by lia.
  rewrite main_loop_app, Hk, main_loop_S. simpl.
  destruct (loop_body (w k)) as [t' [[|]|e]]; simpl in *;
    [congruence | reflexivity | reflexivity].
Qed.

(** C4.  Under [asyncio.run] an interrupt during the idle delay reaches
    [main] as [asyncio.CancelledError] raised by the [await].  The loop
    has made [k] iterations and is still looping; the task runner of
    iteration [k] returns and its [asyncio.sleep(1)] raises
    [CancelledError].  No clause handles it: the shutdown message is not
    logged, the loop is not left by [break], and the exception leaves the
    loop, against the clean stop that the clause
    [except KeyboardInterrupt] is there for. *)
Theorem interrupt_in_idle_delay_propagates (w : nat -> world) (k m : nat)
    (t : trace) (e : exn) (a b : pyval) :
  main_loop k w 0 = (t, Running) ->
  w k cycle_start = Returned a ->
  w k crew_kickoff = Returned b ->
  w k (asyncio_sleep 1) = Raised e ->
  exn_cls e = CancelledError ->
  main_loop (S k + m) w 0
  = (t ++ [(cycle_start, Returned a); (crew_kickoff, Returned b);
           (asyncio_sleep 1, Raised e)],
     Propagated e)
  /\ snd (main_loop (S k + m) w 0) <> Stopped
  /\ ~ In shutdown_notice
       (calls [(cycle_start, Returned a); (crew_kickoff, Returned b);
               (asyncio_sleep 1, Raised e)]).
Proof.
  intros Hk Ha Hb Hs He.
  assert (Hki : isinstance e KeyboardInterrupt = false)
    by (unfold isinstance; rewrite He; reflexivity).
  assert (Hex : isinstance e Exception = false)
    by (unfold isinstance; rewrite He; reflexivity).
  assert (Hbody : loop_body (w k)
                  = ([(cycle_start, Returned a); (crew_kickoff, Returned b);
                      (asyncio_sleep 1, Raised e)], Raised e)).
  { rewrite loop_body_unfold, cycle_unfold, Ha, Hb, Hs, dispatch_handlers,
      Hki, Hex. reflexivity. }
  assert (Hrun : main_loop (S k + m) w 0
                 = (t ++ [(cycle_start, Returned a); (crew_kickoff, Returned b);
                          (asyncio_sleep 1, Raised e)], Propagated e)).
  { rewrite (main_loop_next k m w t Hk); rewrite Hbody;
      [reflexivity|discriminate]. }
  split; [exact Hrun|]. split.
  - rewrite Hrun. discriminate.
  - simpl. unfold cycle_start, shutdown_notice.
    intros [H|[H|[H|[]]]]; discriminate H.
Qed.

(** Two quiet iterations, then Ctrl-C while the third one sleeps its
    idle delay. *)
Lemma interrupt_in_idle_delay_propagates_third_iteration :
  main_loop 2 (raising_at 2 is_idle_sleep cancelled) 0
  = (fst (main_loop 2 (fun _ => world_quiet) 0), Running)
  /\ raising_at 2 is_idle_sleep cancelled 2%nat (asyncio_sleep 1)
     = Raised cancelled
  /\ exn_cls cancelled = CancelledError
  /\ main_loop 3 (raising_at 2 is_idle_sleep cancelled) 0
     = (fst (main_loop 2 (fun _ => world_quiet) 0)
          ++ [(cycle_start, Returned PyNone); (crew_kickoff, Returned PyNone);
              (asyncio_sleep 1, Raised cancelled)],
        Propagated cancelled)
  /\ snd (main_loop 3 (raising_at 2 is_idle_sleep cancelled) 0) <> Stopped.
Proof.
  split; [reflexivity|]. split; [reflexivity|]. split; [reflexivity|].
  destruct (interrupt_in_idle_delay_propagates
              (raising_at 2 is_idle_sleep cancelled) 2 0 _ cancelled
              PyNone PyNone eq_refl eq_refl eq_refl eq_refl eq_refl)
    as (Hrun & Hns & _).
  split; [exact Hrun|exact Hns].
Defined.

(** C9.  The loop has made [k] iterations and is still looping.  In
    iteration [k] the task runner raises an [Exception], the error is
    logged, and the [asyncio.sleep(5)] of the handler raises
    [KeyboardInterrupt].  That interrupt is raised outside the [try]: the
    clause [except KeyboardInterrupt] does not see it, the shutdown message
    is not logged, and the interrupt leaves the loop as an exception. *)
Theorem interrupt_in_backoff_propagates (w : nat -> world) (k m : nat)
    (t : trace) (e ki : exn) (a v : pyval) :
  main_loop k w 0 = (t, Running) ->
  w k cycle_start = Returned a ->
  w k crew_kickoff = Raised e ->
  isinstance e Exception = true ->
  w k (error_report e) = Returned v ->
  w k (asyncio_sleep 5) = Raised ki ->
  isinstance ki KeyboardInterrupt = true ->
  main_loop (S k + m) w 0
  = (t ++ [(cycle_start, Returned a); (crew_kickoff, Raised e);
           (error_report e, Returned v); (asyncio_sleep 5, Raised ki)],
     Propagated ki)
  /\ snd (main_loop (S k + m) w 0) <> Stopped
  /\ ~ In shutdown_notice
       (calls [(cycle_start, Returned a); (crew_kickoff, Raised e);
               (error_report e, Returned v); (asyncio_sleep 5, Raised ki)]).
Proof.
  intros Hk Ha He Hexc Hv Hki _.
  assert (Hb : loop_body (w k)
               = ([(cycle_start, Returned a); (crew_kickoff, Raised e);
                   (error_report e, Returned v);
                   (asyncio_sleep 5, Raised ki)], Raised ki)).
  { rewrite loop_body_unfold, cycle_unfold, Ha, He, dispatch_handlers,
      (Exception_not_KeyboardInterrupt e Hexc), Hexc, Hv, Hki. reflexivity. }
  assert (Hrun : main_loop (S k + m) w 0
                 = (t ++ [(cycle_start, Returned a); (crew_kickoff, Raised e);
                          (error_report e, Returned v);
                          (asyncio_sleep 5, Raised ki)], Propagated ki)).
  { rewrite (main_loop_next k m w t Hk); rewrite Hb;
      [reflexivity|discriminate]. }
  split; [exact Hrun|]. split.
  - rewrite Hrun. discriminate.
  - simpl. unfold cycle_start, shutdown_notice, error_report.
    intros [H|[H|[H|[H|[]]]]]; discriminate H.
Qed.

(** [TimeoutError] from the task runner in the first iteration, then
    Ctrl-C during the five-second delay. *)
Lemma interrupt_in_backoff_propagates_first_iteration :
  let w : nat -> world :=
    fun _ c =>
      match c with
      | crew_kickoff => Raised TimeoutError_timed_out
      | asyncio_sleep 5 => Raised interrupt
      | _ => Returned PyNone
      end in
  main_loop 0 w 0 = ([], Running)
  /\ isinstance TimeoutError_timed_out Exception = true
  /\ isinstance interrupt KeyboardInterrupt = true
  /\ main_loop 1 w 0
     = ([(cycle_start, Returned PyNone);
         (crew_kickoff, Raised TimeoutError_timed_out);
         (error_report TimeoutError_timed_out, Returned PyNone);
         (asyncio_sleep 5, Raised interrupt)],
        Propagated interrupt).
Proof.
  intros w. split; [reflexivity|]. split; [reflexivity|].
  split; [reflexivity|].
  exact (proj1 (interrupt_in_backoff_propagates w 0 0 []
                  TimeoutError_timed_out interrupt PyNone PyNone
                  eq_refl eq_refl eq_refl eq_refl eq_refl eq_refl eq_refl)).
Defined.

(** ** Supervisor loop: retries *)

(** An iteration in which only [crew.kickoff()] may raise, and then only
    an [Exception], invokes the task runner once and goes on to the next
    iteration. *)
Lemma loop_body_retries (w : world) :
  (forall c, c = crew_kickoff \/ exists v, w c = Returned v) ->
  (forall e, w crew_kickoff = Raised e -> isinstance e Exception = true) ->
  snd (loop_body w) = Returned Continue
  /\ length (List.filter is_kickoff (calls (fst (loop_body w)))) = 1%nat.
Proof.
  intros Hret Hexc.
  rewrite loop_body_unfold, cycle_unfold.
  destruct (Hret cycle_start) as [|[a ->]]; [discriminate|].
  destruct (Hret (asyncio_sleep 1)) as [|[c ->]]; [discriminate|].
  destruct (w crew_kickoff) as [b|e] eqn:Hk; [split; reflexivity|].
  specialize (Hexc e eq_refl).
  rewrite dispatch_handlers, (Exception_not_KeyboardInterrupt e Hexc), Hexc.
  destruct (Hret (error_report e)) as [|[v ->]]; [discriminate|].
  destruct (Hret (asyncio_sleep 5)) as [|[d ->]]; [discriminate|].
  split; reflexivity.
Qed.

(** With such iterations only, the loop never ends, however many of them
    fail: after [fuel] iterations it is still looping and has invoked the
    task runner [fuel] times. *)
Lemma main_loop_retries_forever (w : nat -> world) :
  (forall i c, c = crew_kickoff \/ exists v, w i c = Returned v) ->
  (forall i e, w i crew_kickoff = Raised e -> isinstance e Exception = true) ->
  forall fuel i,
    snd (main_loop fuel w i) = Running
    /\ length (List.filter is_kickoff (calls (fst (main_loop fuel w i)))) = fuel.
Proof.
  intros Hret Hexc fuel; induction fuel as [|fuel IH]; intros i;
    [split; reflexivity|].
  rewrite main_loop_S.
  destruct (loop_body_retries (w i) (Hret i) (Hexc i)) as [Hc Hn].
  destruct (loop_body (w i)) as [t r]. cbn [fst snd] in Hc, Hn. subst r.
  destruct (IH (S i)) as [Hs Hm].
  destruct (main_loop fuel w (S i)) as [t' s]. cbn [fst snd] in *.
  split; [exact Hs|].
  unfold calls in *. rewrite map_app, List.filter_app, List.length_app.
  exact (f_equal2 Nat.add Hn Hm).
Qed.

(** C2, as the code has it.  The task runner raises an instance of
    [Exception] on iteration [n] and every other call of the run returns.
    Then iteration [n] logs the error and sleeps 5, iteration [n + 1]
    invokes the task runner again, and the loop never ends: after any
    number of iterations it is still looping and has invoked the task
    runner once per iteration. *)
Theorem retry_after_Exception (w : nat -> world) (n : nat) (e : exn) :
  isinstance e Exception = true ->
  w n crew_kickoff = Raised e ->
  (forall i c, (i = n /\ c = crew_kickoff) \/ exists v, w i c = Returned v) ->
  (exists a v d a' b' c',
      main_loop (n + 2) w 0
      = (fst (main_loop n w 0)
           ++ [(cycle_start, Returned a); (crew_kickoff, Raised e);
               (error_report e, Returned v); (asyncio_sleep 5, Returned d);
               (cycle_start, Returned a'); (crew_kickoff, Returned b');
               (asyncio_sleep 1, Returned c')],
         Running))
  /\ forall fuel,
      snd (main_loop fuel w 0) = Running
      /\ length (List.filter is_kickoff (calls (fst (main_loop fuel w 0)))) = fuel.
Proof.
  intros Hexc Hn Hret.
  assert (Hret' : forall i c, c = crew_kickoff \/ exists v, w i c = Returned v).
  { intros i c. destruct (Hret i c) as [[_ ->]|H]; [left; reflexivity|right; exact H]. }
  assert (Hexc' : forall i e', w i crew_kickoff = Raised e' ->
                               isinstance e' Exception = true).
  { intros i e' H. destruct (Hret i crew_kickoff) as [[-> _]|[v Hv]];
      [rewrite Hn in H; injection H as <-; exact Hexc | congruence]. }
  pose proof (main_loop_retries_forever w Hret' Hexc') as Hforever.
  split; [|intros fuel; apply Hforever].
  destruct (Hret n cycle_start) as [[_ H]|[a Ha]]; [discriminate|].
  destruct (Hret n (error_report e)) as [[_ H]|[v Hv]]; [discriminate|].
  destruct (Hret n (asyncio_sleep 5)) as [[_ H]|[d Hd]]; [discriminate|].
  destruct (Hret (S n) cycle_start) as [[_ H]|[a' Ha']]; [discriminate|].
  destruct (Hret (S n) crew_kickoff) as [[H _]|[b' Hb']]; [lia|].
  destruct (Hret (S n) (asyncio_sleep 1)) as [[_ H]|[c' Hc']]; [discriminate|].
  exists a, v, d, a', b', c'.
  rewrite main_loop_app.
  destruct (Hforever n 0%nat) as [Hrun _].
  destruct (main_loop n w 0) as [t s]. simpl in Hrun. subst s. simpl fst.
  replace (0 + n)%nat with n by lia.
  rewrite !main_loop_S, !loop_body_unfold, !cycle_unfold.
  rewrite Ha, Hn, dispatch_handlers, (Exception_not_KeyboardInterrupt e Hexc),
    Hexc, Hv, Hd, Ha', Hb', Hc'.
  reflexivity.
Qed.

(** The task runner raises [TimeoutError] once, on its third invocation,
    and succeeds otherwise. *)
Lemma retry_after_Exception_TimeoutError :
  isinstance TimeoutError_timed_out Exception = true
  /\ raising_at 2 is_kickoff TimeoutError_timed_out 2%nat crew_kickoff
     = Raised TimeoutError_timed_out
  /\ (exists a v d a' b' c',
         main_loop 4 (raising_at 2 is_kickoff TimeoutError_timed_out) 0
         = (fst (main_loop 2 (raising_at 2 is_kickoff TimeoutError_timed_out) 0)
              ++ [(cycle_start, Returned a);
                  (crew_kickoff, Raised TimeoutError_timed_out);
                  (error_report TimeoutError_timed_out, Returned v);
                  (asyncio_sleep 5, Returned d);
                  (cycle_start, Returned a'); (crew_kickoff, Returned b');
                  (asyncio_sleep 1, Returned c')],
            Running))
  /\ snd (main_loop 100 (raising_at 2 is_kickoff TimeoutError_timed_out) 0)
     = Running.
Proof.
  split; [reflexivity|]. split; [reflexivity|].
  destruct (retry_after_Exception
              (raising_at 2 is_kickoff TimeoutError_timed_out) 2
              TimeoutError_timed_out eq_refl eq_refl) as [Htrace Hforever].
  - intros i c. unfold raising_at.
    destruct (i =? 2)%nat eqn:Hi; [|right; exists PyNone; reflexivity].
    apply Nat.eqb_eq in Hi.
    destruct c; try (right; exists PyNone; reflexivity).
    left. split; [exact Hi|reflexivity].
  - split; [exact Htrace|]. exact (proj1 (Hforever 100%nat)).
Defined.

(** Counterexample to C2 as stated: [SystemExit] is an exception and no
    interrupt, yet
    when the task runner raises it the loop neither logs nor sleeps nor
    retries; the exception leaves the loop on the spot. *)
Lemma SystemExit_ends_loop :
  raising_at 0 is_kickoff SystemExit_1 0%nat crew_kickoff = Raised SystemExit_1
  /\ isinstance SystemExit_1 KeyboardInterrupt = false
  /\ main_loop 3 (raising_at 0 is_kickoff SystemExit_1) 0
     = ([(cycle_start, Returned PyNone); (crew_kickoff, Raised SystemExit_1)],
        Propagated SystemExit_1).
Proof. repeat split. Qed.

(** ** UTF-8 *)

Lemma div_bound (c d q : N) : d <> 0 -> c < d * q -> c / d < q.
Proof. intros Hd H. apply N.Div0.div_lt_upper_bound. exact H. Qed.

Lemma utf8_char_shape (c : N) (bs : list N) :
  utf8_char c = Some bs -> utf8_shape c bs.
Proof.
  assert (D2 : c = 64 * (c / 64) + c mod 64) by (apply N.div_mod; lia).
  assert (D3 : c = 64 * (64 * (c / 4096) + (c / 64) mod 64) + c mod 64).
  { change 4096 with (64 * 64). rewrite <- N.Div0.div_div.
    rewrite <- !N.div_mod by lia. reflexivity. }
  assert (D4 : c = 64 * (64 * (64 * (c / 262144) + (c / 4096) mod 64)
                          + (c / 64) mod 64) + c mod 64).
  { change 262144 with (64 * 64 * 64). change 4096 with (64 * 64).
    rewrite <- !N.Div0.div_div. rewrite <- !N.div_mod by lia. reflexivity. }
  unfold utf8_char.
  destruct (N.ltb_spec c 128) as [H1|H1].
  { intros [= <-]. constructor. exact H1. }
  destruct (N.ltb_spec c 2048) as [H2|H2].
  { intros [= <-].
    apply utf8_2;
      first [ exact D2 | exact H1 | apply div_bound; lia | apply N.mod_lt; lia ]. }
  destruct (N.ltb_spec c 65536) as [H3|H3].
  { destruct (is_surrogate c); [discriminate|]. intros [= <-].
    apply utf8_3;
      first [ exact D3 | exact H1 | apply div_bound; lia | apply N.mod_lt; lia ]. }
  destruct (N.ltb_spec c 1114112) as [H4|H4]; [|discriminate].
  intros [= <-].
  apply utf8_4;
    first [ exact D4 | exact H1 | apply div_bound; lia | apply N.mod_lt; lia ].
Qed.

(** A UTF-8 sequence is self-delimiting: its first byte tells its length,
    and its bytes tell the code point. *)
Lemma utf8_shape_inj (c1 c2 : N) (b1 b2 r1 r2 : list N) :
  utf8_shape c1 b1 -> utf8_shape c2 b2 ->
  b1 ++ r1 = b2 ++ r2 -> c1 = c2 /\ r1 = r2.
Proof.
  intros [] []; simpl; intros [= ]; subst; split; try reflexivity; try lia;
    try assumption.
Qed.

Lemma utf8_shape_bytes (c : N) (bs : list N) :
  utf8_shape c bs -> Forall (fun b => b < 256) bs.
Proof.
  intros []; repeat (constructor; [lia|]); constructor.
Qed.

(** A space is its own encoding, and no other code point has the byte 32
    in its encoding. *)
Lemma utf8_shape_space (c : N) (bs : list N) :
  utf8_shape c bs -> inb 32 bs = (32 =? c).
Proof.
  intros []; unfold inb; cbn [existsb]; rewrite ?orb_false_r;
    repeat match goal with
           | |- context [N.eqb ?a ?b] => destruct (N.eqb_spec a b)
           end; cbn [orb]; try reflexivity; lia.
Qed.

Lemma encode_utf8_from_cons (start : nat) (c : N) (s : pystr) (bs : list N) :
  encode_utf8_from start (c :: s) = Returned bs ->
  exists b r, utf8_char c = Some b
              /\ encode_utf8_from (S start) s = Returned r /\ bs = b ++ r.
Proof.
  simpl. destruct (utf8_char c) as [b|]; [|discriminate].
  destruct (encode_utf8_from (S start) s) as [r|]; [|discriminate].
  intros [= <-]. eauto.
Qed.

(** The encoding tells the string, wherever the count of positions for
    the error message started. *)
Lemma encode_utf8_from_inj (s1 s2 : pystr) (n1 n2 : nat) (bs : list N) :
  encode_utf8_from n1 s1 = Returned bs ->
  encode_utf8_from n2 s2 = Returned bs ->
  s1 = s2.
Proof.
  revert s2 n1 n2 bs; induction s1 as [|c1 s1 IH]; intros [|c2 s2] n1 n2 bs H1 H2.
  - reflexivity.
  - apply encode_utf8_from_cons in H2 as (b & r & Hc & _ & ->).
    injection H1 as H1. apply utf8_char_shape in Hc. destruct Hc; discriminate.
  - apply encode_utf8_from_cons in H1 as (b & r & Hc & _ & ->).
    injection H2 as H2. apply utf8_char_shape in Hc. destruct Hc; discriminate.
  - apply encode_utf8_from_cons in H1 as (b1 & r1 & Hc1 & Hr1 & ->).
    apply encode_utf8_from_cons in H2 as (b2 & r2 & Hc2 & Hr2 & E).
    apply utf8_char_shape in Hc1, Hc2.
    destruct (utf8_shape_inj _ _ _ _ _ _ Hc1 Hc2 E) as [-> ->].
    f_equal. exact (IH _ _ _ _ Hr1 Hr2).
Qed.

Lemma encode_utf8_from_bytes (s : pystr) (n : nat) (bs : list N) :
  encode_utf8_from n s = Returned bs -> Forall (fun b => b < 256) bs.
Proof.
  revert n bs; induction s as [|c s IH]; intros n bs H.
  - injection H as <-. constructor.
  - apply encode_utf8_from_cons in H as (b & r & Hc & Hr & ->).
    apply Forall_app. split.
    + exact (utf8_shape_bytes _ _ (utf8_char_shape _ _ Hc)).
    + exact (IH _ _ Hr).
Qed.

Lemma inb_app (x : N) (l1 l2 : list N) :
  inb x (l1 ++ l2) = inb x l1 || inb x l2.
Proof. unfold inb. apply existsb_app. Qed.

Lemma encode_utf8_from_space (s : pystr) (n : nat) (bs : list N) :
  encode_utf8_from n s = Returned bs -> inb 32 bs = inb 32 s.
Proof.
  revert n bs; induction s as [|c s IH]; intros n bs H.
  - injection H as <-. reflexivity.
  - apply encode_utf8_from_cons in H as (b & r & Hc & Hr & ->).
    rewrite inb_app, (utf8_shape_space _ _ (utf8_char_shape _ _ Hc)),
      (IH _ _ Hr). reflexivity.
Qed.

(** ** Percent-encoding *)

Lemma hex_upper_not_space (d : N) : (hex_upper d =? 32) = false.
Proof. unfold hex_upper. destruct (d <? 10); apply N.eqb_neq; lia. Qed.

Lemma hex_upper_inj (d1 d2 : N) :
  d1 < 16 -> d2 < 16 -> hex_upper d1 = hex_upper d2 -> d1 = d2.
Proof.
  unfold hex_upper.
  destruct (N.ltb_spec d1 10), (N.ltb_spec d2 10); lia.
Qed.

Lemma hex_upper_not_query (d : N) : hex_upper d <> 63.
Proof. unfold hex_upper. destruct (N.ltb_spec d 10); lia. Qed.

Lemma always_safe_cases (b : N) :
  always_safe b = true ->
  b <> 32 /\ b <> 37 /\ b <> 43 /\ b <> 63.
Proof.
  intros H. repeat split; intros ->; vm_compute in H; discriminate.
Qed.

(** Without a space in the input, [quote] with no extra safe character
    writes every byte as a form value does. *)
Lemma quote_from_bytes_no_space (bs : list N) :
  inb 32 bs = false -> quote_from_bytes bs [] = flat_map form_byte bs.
Proof.
  unfold quote_from_bytes. induction bs as [|b bs IH]; [reflexivity|].
  unfold inb in *. cbn [existsb flat_map]. intros H.
  apply orb_false_elim in H as [Hb Hbs].
  rewrite (IH Hbs). f_equal.
  unfold quoter, form_byte, inb. cbn [existsb]. rewrite orb_false_r.
  rewrite N.eqb_sym in Hb. rewrite Hb. reflexivity.
Qed.

(** With the space kept safe and then replaced by [+], the same. *)
Lemma quote_from_bytes_replace (bs : list N) :
  replace 32 43 (quote_from_bytes bs [32]) = flat_map form_byte bs.
Proof.
  unfold quote_from_bytes, replace. induction bs as [|b bs IH]; [reflexivity|].
  cbn [flat_map]. rewrite map_app, IH. f_equal.
  unfold quoter, form_byte, inb. cbn [existsb]. rewrite orb_false_r.
  destruct (always_safe b) eqn:Hs; cbn [orb map].
  - destruct (always_safe_cases b Hs) as [H _].
    destruct (N.eqb_spec b 32); [contradiction|reflexivity].
  - destruct (N.eqb_spec b 32) as [->|H]; cbn [map]; [reflexivity|].
    destruct (N.eqb_spec b 32); [contradiction|].
    rewrite !hex_upper_not_space. reflexivity.
Qed.

(** [quote_plus] writes the UTF-8 bytes of the string as form values. *)
Lemma quote_plus_form (s : pystr) :
  quote_plus s =
  match encode_utf8 s with
  | Returned bs => Returned (flat_map form_byte bs)
  | Raised e => Raised e
  end.
Proof.
  unfold quote_plus, quote.
  destruct (encode_utf8 s) as [bs|e] eqn:He.
  - pose proof (encode_utf8_from_space s 0 bs He) as Hsp.
    destruct (inb 32 s) eqn:Hs; simpl.
    + destruct s as [|c s]; [discriminate|].
      rewrite quote_from_bytes_replace. reflexivity.
    + destruct s as [|c s]; [injection He as <-; reflexivity|].
      rewrite (quote_from_bytes_no_space bs Hsp). reflexivity.
  - destruct s as [|c s]; [discriminate|].
    destruct (inb 32 (c :: s)); reflexivity.
Qed.

Lemma form_byte_inj (b1 b2 : N) (r1 r2 : pystr) :
  b1 < 256 -> b2 < 256 ->
  form_byte b1 ++ r1 = form_byte b2 ++ r2 -> b1 = b2 /\ r1 = r2.
Proof.
  intros L1 L2. unfold form_byte.
  destruct (always_safe b1) eqn:S1; [apply always_safe_cases in S1|];
    (destruct (always_safe b2) eqn:S2; [apply always_safe_cases in S2|]);
    try destruct (N.eqb_spec b1 32); try destruct (N.eqb_spec b2 32);
    simpl; intros [= ]; subst; try (split; [reflexivity || lia | reflexivity]);
    try (exfalso; intuition congruence).
  assert (Hd : b1 / 16 = b2 / 16).
  { apply hex_upper_inj; [apply div_bound; lia | apply div_bound; lia | assumption]. }
  assert (Hm : b1 mod 16 = b2 mod 16).
  { apply hex_upper_inj; [apply N.mod_lt; lia | apply N.mod_lt; lia | assumption]. }
  split; [|reflexivity].
  rewrite (N.div_mod b1 16), (N.div_mod b2 16), Hd, Hm by lia. reflexivity.
Qed.

Lemma flat_map_form_byte_inj (bs1 bs2 : list N) :
  Forall (fun b => b < 256) bs1 -> Forall (fun b => b < 256) bs2 ->
  flat_map form_byte bs1 = flat_map form_byte bs2 -> bs1 = bs2.
Proof.
  intros H1; revert bs2; induction H1 as [|b1 bs1 L1 _ IH];
    intros bs2 H2 E; destruct H2 as [|b2 bs2 L2 H2]; simpl in E.
  - reflexivity.
  - unfold form_byte in E.
    destruct (always_safe b2), (b2 =? 32); discriminate.
  - unfold form_byte in E.
    destruct (always_safe b1), (b1 =? 32); discriminate.
  - destruct (form_byte_inj _ _ _ _ L1 L2 E) as [-> E'].
    f_equal. exact (IH _ H2 E').
Qed.

(** [quote_plus] is injective where it returns. *)
Lemma quote_plus_inj (s1 s2 q : pystr) :
  quote_plus s1 = Returned q -> quote_plus s2 = Returned q -> s1 = s2.
Proof.
  rewrite !quote_plus_form.
  destruct (encode_utf8 s1) as [bs1|] eqn:E1; [|discriminate].
  destruct (encode_utf8 s2) as [bs2|] eqn:E2; [|discriminate].
  intros [= <-] [= E].
  apply flat_map_form_byte_inj in E;
    [| exact (encode_utf8_from_bytes _ _ _ E2)
     | exact (encode_utf8_from_bytes _ _ _ E1)].
  subst bs2. exact (encode_utf8_from_inj _ _ _ _ _ E1 E2).
Qed.

(** No form value holds a question mark. *)
Lemma form_value_no_query (bs : list N) : ~ In 63 (flat_map form_byte bs).
Proof.
  induction bs as [|b bs IH]; simpl; [tauto|].
  intros H. apply in_app_or in H as [H|H]; [|exact (IH H)].
  unfold form_byte in H.
  destruct (always_safe b) eqn:Hs.
  - apply always_safe_cases in Hs. simpl in H. intuition congruence.
  - destruct (b =? 32); simpl in H.
    + intuition discriminate.
    + destruct H as [H|[H|[H|[]]]]; try discriminate H;
        exact (hex_upper_not_query _ H).
Qed.

(** ** Connection descriptor *)

Lemma quote_plus_agentId : quote_plus (py "agentId") = Returned (py "agentId").
Proof. reflexivity. Qed.

Lemma quote_plus_agentDescription :
  quote_plus (py "agentDescription") = Returned (py "agentDescription").
Proof. reflexivity. Qed.

Lemma quote_plus_description :
  quote_plus (py "An AI agent that generates Reddit posts with memory-enhanced personalization")
  = Returned (py "An+AI+agent+that+generates+Reddit+posts+with+memory-enhanced+personalization").
Proof. vm_compute. reflexivity. Qed.

(** The descriptor is the rendering of the base URL, [?agentId=], the
    quoted rendering of the identity, and the description parameter; it
    fails exactly when quoting the identity fails. *)
Lemma CORAL_SERVER_URL_form (base_url agent_id : pyval) :
  CORAL_SERVER_URL base_url agent_id =
  match quote_plus (str agent_id) with
  | Returned q =>
      Returned (str base_url ++ py "?agentId=" ++ q ++ description_param)
  | Raised e => Raised e
  end.
Proof.
  unfold CORAL_SERVER_URL, urlencode, urlencode_pairs.
  rewrite quote_plus_agentId, quote_plus_agentDescription.
  cbn [str]. rewrite quote_plus_description.
  destruct (quote_plus (str agent_id)) as [q|e]; reflexivity.
Qed.

Lemma last_separator (x : N) (l1 l2 t1 t2 : pystr) :
  ~ In x t1 -> ~ In x t2 ->
  l1 ++ x :: t1 = l2 ++ x :: t2 -> l1 = l2 /\ t1 = t2.
Proof.
  intros H1 H2; revert l2; induction l1 as [|a l1 IH]; intros [|b l2] E;
    simpl in E.
  - injection E as E. split; [reflexivity|exact E].
  - injection E as E1 E2. exfalso. apply H1. rewrite E2.
    apply in_or_app. right. left. reflexivity.
  - injection E as E1 E2. exfalso. apply H2. rewrite <- E2.
    apply in_or_app. right. left. reflexivity.
  - injection E as E1 E2. destruct (IH _ E2) as [-> ->]. subst.
    split; reflexivity.
Qed.

Lemma quoted_no_query (s q : pystr) :
  quote_plus s = Returned q -> ~ In 63 (py "agentId=" ++ q).
Proof.
  rewrite quote_plus_form. destruct (encode_utf8 s) as [bs|]; [|discriminate].
  intros [= <-] H. apply in_app_or in H as [H|H].
  - vm_compute in H. intuition discriminate.
  - exact (form_value_no_query _ H).
Qed.

(** Two descriptors are equal only when the renderings of their base URLs
    and of their identities are. *)
Lemma descriptor_tells_renderings (b1 a1 b2 a2 : pyval) (u : pystr) :
  CORAL_SERVER_URL b1 a1 = Returned u ->
  CORAL_SERVER_URL b2 a2 = Returned u ->
  str b1 = str b2 /\ str a1 = str a2.
Proof.
  rewrite !CORAL_SERVER_URL_form.
  destruct (quote_plus (str a1)) as [q1|] eqn:Q1; [|discriminate].
  destruct (quote_plus (str a2)) as [q2|] eqn:Q2; [|discriminate].
  intros [= <-] [= E].
  assert (E' : (str b1 ++ 63 :: py "agentId=" ++ q1) ++ description_param
               = (str b2 ++ 63 :: py "agentId=" ++ q2) ++ description_param).
  { rewrite <- !app_assoc. symmetry. exact E. }
  apply app_inv_tail in E'.
  apply last_separator in E' as [Hb Hq];
    [| exact (quoted_no_query _ _ Q1) | exact (quoted_no_query _ _ Q2)].
  apply app_inv_head in Hq. subst q2.
  split; [exact Hb|]. exact (quote_plus_inj _ _ _ Q1 Q2).
Qed.

(** Counterexample to C6 as stated: an environment without
    [CORAL_AGENT_ID] and one
    where it is set to the text [None] give different pairs of identity
    and base URL, and the same descriptor. *)
Lemma unset_identity_collides_with_None :
  let environ1 : gmap string pystr :=
    {[ "CORAL_SSE_URL"%string := py "https://x/sse" ]} in
  let environ2 : gmap string pystr :=
    <[ "CORAL_AGENT_ID"%string := py "None" ]> environ1 in
  (getenv environ1 "CORAL_AGENT_ID", getenv environ1 "CORAL_SSE_URL")
  <> (getenv environ2 "CORAL_AGENT_ID", getenv environ2 "CORAL_SSE_URL")
  /\ CORAL_SERVER_URL (getenv environ1 "CORAL_SSE_URL")
       (getenv environ1 "CORAL_AGENT_ID")
     = Returned (py "https://x/sse?agentId=None" ++ description_param)
  /\ CORAL_SERVER_URL (getenv environ2 "CORAL_SSE_URL")
       (getenv environ2 "CORAL_AGENT_ID")
     = Returned (py "https://x/sse?agentId=None" ++ description_param).
Proof.
  intros environ1 environ2.
  split; [vm_compute; discriminate|]. split; vm_compute; reflexivity.
Qed.

(* ===================================================================== *)
(** * Further properties *)
(* ===================================================================== *)

(** ** Memory gateway: what leaves the tools *)

Lemma search_returned (w : world) (query : pystr) (r : pyval) :
  w (client_search query (py "reddit_user")) = Returned r ->
  snd (search_mem0_memories query w)
  = Returned (BOOKS ++ py " Relevant memories found for this query: "
                ++ str r).
Proof.
  intros H. cbv [search_mem0_memories try_except bind perform ret].
  rewrite H. reflexivity.
Qed.

(** X1.  An exception that leaves [store_user_request_in_mem0] or
    [search_mem0_memories] is the very exception the client call raised,
    and it is no instance of [Exception]: the tools raise nothing of
    their own and let no [Exception] through. *)
Theorem gateway_raises_only_what_client_raised (w : world) :
  (forall user_request e,
      snd (store_user_request_in_mem0 user_request w) = Raised e ->
      isinstance e Exception = false
      /\ w (client_add (transcript user_request) (py "reddit_user"))
         = Raised e)
  /\ (forall query e,
      snd (search_mem0_memories query w) = Raised e ->
      isinstance e Exception = false
      /\ w (client_search query (py "reddit_user")) = Raised e).
Proof.
  split.
  - intros user_request e.
    destruct (w (client_add (transcript user_request) (py "reddit_user")))
      as [r|e0] eqn:H.
    + rewrite (store_returned w _ _ H). discriminate.
    + rewrite (store_raised w _ _ H).
      destruct (isinstance e0 Exception) eqn:He; [discriminate|].
      intros [= <-]. split; [exact He|reflexivity].
  - intros query e.
    destruct (w (client_search query (py "reddit_user"))) as [r|e0] eqn:H.
    + rewrite (search_returned w _ _ H). discriminate.
    + rewrite (search_raised w _ _ H).
      destruct (isinstance e0 Exception) eqn:He; [discriminate|].
      intros [= <-]. split; [exact He|reflexivity].
Qed.

(** Ctrl-C during either client call. *)
Lemma gateway_raises_only_what_client_raised_interrupt :
  snd (store_user_request_in_mem0 (py "hello") world_interrupted)
  = Raised interrupt
  /\ snd (search_mem0_memories (py "hello") world_interrupted)
     = Raised interrupt
  /\ isinstance interrupt Exception = false
  /\ world_interrupted (client_add (transcript (py "hello")) (py "reddit_user"))
     = Raised interrupt
  /\ world_interrupted (client_search (py "hello") (py "reddit_user"))
     = Raised interrupt.
Proof.
  destruct (gateway_raises_only_what_client_raised world_interrupted)
    as [Hstore Hsearch].
  destruct (Hstore (py "hello") interrupt eq_refl) as [H1 H2].
  destruct (Hsearch (py "hello") interrupt eq_refl) as [_ H3].
  repeat split; assumption.
Defined.

(** X2.  The first character of a result tells how the client call
    ended: the result of [store_user_request_in_mem0] starts with the
    sparkles exactly when [client.add] returned and with the cross mark
    exactly when it raised, and the result of [search_mem0_memories]
    starts with the books exactly when [client.search] returned and with
    the magnifier exactly when it raised, whatever the request and the
    text of the exception are. *)
Theorem gateway_marker_tells_outcome (w : world) :
  (forall user_request s,
      snd (store_user_request_in_mem0 user_request w) = Returned s ->
      (startswith s SPARKLES = true <->
       exists r, w (client_add (transcript user_request) (py "reddit_user"))
                 = Returned r)
      /\ (startswith s CROSS_MARK = true <->
          exists e, w (client_add (transcript user_request) (py "reddit_user"))
                    = Raised e))
  /\ (forall query s,
      snd (search_mem0_memories query w) = Returned s ->
      (startswith s BOOKS = true <->
       exists r, w (client_search query (py "reddit_user")) = Returned r)
      /\ (startswith s MAGNIFIER = true <->
          exists e, w (client_search query (py "reddit_user")) = Raised e)).
Proof.
  split.
  - intros user_request s.
    destruct (w (client_add (transcript user_request) (py "reddit_user")))
      as [r|e0] eqn:H.
    + rewrite (store_returned w _ _ H). intros [= <-]. split; split.
      * eauto.
      * reflexivity.
      * discriminate.
      * intros [e He]. discriminate.
    + rewrite (store_raised w _ _ H).
      destruct (isinstance e0 Exception); [|discriminate].
      intros [= <-]. split; split.
      * discriminate.
      * intros [r Hr]. discriminate.
      * eauto.
      * reflexivity.
  - intros query s.
    destruct (w (client_search query (py "reddit_user"))) as [r|e0] eqn:H.
    + rewrite (search_returned w _ _ H). intros [= <-]. split; split.
      * eauto.
      * reflexivity.
      * discriminate.
      * intros [e He]. discriminate.
    + rewrite (search_raised w _ _ H).
      destruct (isinstance e0 Exception); [|discriminate].
      intros [= <-]. split; split.
      * discriminate.
      * intros [r Hr]. discriminate.
      * eauto.
      * reflexivity.
Qed.

(** Against the unreachable service both results start with the failure
    marker. *)
Lemma gateway_marker_tells_outcome_down :
  (exists s,
      snd (store_user_request_in_mem0 (py "hello") world_down) = Returned s
      /\ startswith s CROSS_MARK = true /\ startswith s SPARKLES = false)
  /\ (exists s,
      snd (search_mem0_memories (py "hello") world_down) = Returned s
      /\ startswith s MAGNIFIER = true /\ startswith s BOOKS = false).
Proof.
  destruct (gateway_marker_tells_outcome world_down) as [Hstore Hsearch].
  split.
  - eexists. split; [reflexivity|].
    destruct (Hstore (py "hello") _ eq_refl) as [_ [_ Hc]].
    split; [apply Hc; eexists; reflexivity | reflexivity].
  - eexists. split; [reflexivity|].
    destruct (Hsearch (py "hello") _ eq_refl) as [_ [_ Hc]].
    split; [apply Hc; eexists; reflexivity | reflexivity].
Defined.

(** X3.  When [client.add] returns, the result of
    [store_user_request_in_mem0] has [49 + min 50 (len user_request)]
    characters, so never more than 99, however long the request is. *)
Theorem store_success_length (w : world) (user_request : pystr)
    (result : pyval) :
  w (client_add (transcript user_request) (py "reddit_user")) = Returned result ->
  exists s,
    snd (store_user_request_in_mem0 user_request w) = Returned s
    /\ length s = (49 + Nat.min 50 (length user_request))%nat
    /\ (length s <= 99)%nat.
Proof.
  intros H. eexists. split; [apply (store_returned w _ _ H)|].
  assert (L : length (SPARKLES ++ py " Successfully stored user request in memory: "
                        ++ slice_to 50 user_request ++ py "...")
              = (49 + Nat.min 50 (length user_request))%nat).
  { rewrite !List.length_app. unfold slice_to. rewrite length_firstn.
    change (length SPARKLES) with 1%nat.
    change (length (py " Successfully stored user request in memory: "))
      with 45%nat.
    change (length (py "...")) with 3%nat. lia. }
  split; [exact L|]. rewrite L. lia.
Qed.

(** A request of a thousand characters. *)
Lemma store_success_length_1000 :
  world_quiet (client_add (transcript (repeat 97 1000)) (py "reddit_user"))
  = Returned PyNone
  /\ exists s,
    snd (store_user_request_in_mem0 (repeat 97 1000) world_quiet) = Returned s
    /\ length s = (49 + Nat.min 50 (length (repeat (97 : N) 1000)))%nat
    /\ (length s <= 99)%nat.
Proof.
  split; [reflexivity|].
  apply (store_success_length world_quiet (repeat 97 1000) PyNone).
  reflexivity.
Defined.

(** X4.  The success result of [store_user_request_in_mem0] depends on
    the first 50 characters of the request and on nothing else: two
    requests that agree there give the same result, whatever the two
    client calls returned. *)
Theorem store_success_first_50_only (w1 w2 : world)
    (request1 request2 : pystr) (r1 r2 : pyval) :
  slice_to 50 request1 = slice_to 50 request2 ->
  w1 (client_add (transcript request1) (py "reddit_user")) = Returned r1 ->
  w2 (client_add (transcript request2) (py "reddit_user")) = Returned r2 ->
  snd (store_user_request_in_mem0 request1 w1)
  = snd (store_user_request_in_mem0 request2 w2).
Proof.
  intros Hs H1 H2.
  rewrite (store_returned w1 _ _ H1), (store_returned w2 _ _ H2), Hs.
  reflexivity.
Qed.

(** Two requests of 51 characters that differ in the last one, stored by
    clients that answer differently. *)
Lemma store_success_first_50_only_51 :
  repeat 97 50 ++ [98] <> repeat 97 50 ++ [99]
  /\ snd (store_user_request_in_mem0 (repeat 97 50 ++ [98]) world_quiet)
     = snd (store_user_request_in_mem0 (repeat 97 50 ++ [99])
              (fun _ => Returned (PyStr (py "stored")))).
Proof.
  split.
  - intros H. apply app_inv_head in H. discriminate.
  - apply (store_success_first_50_only world_quiet
             (fun _ => Returned (PyStr (py "stored")))
             (repeat 97 50 ++ [98]) (repeat 97 50 ++ [99])
             PyNone (PyStr (py "stored"))); reflexivity.
Defined.

(** X5.  When [client.search] returns, the result of
    [search_mem0_memories] is the books, the fixed sentence and [str()] of
    what the client returned, whole: the result of the client is not
    cut, and it is reported as memories found whatever it is. *)
Theorem search_success_embeds_result (w : world) (query : pystr)
    (r : pyval) :
  w (client_search query (py "reddit_user")) = Returned r ->
  exists s,
    snd (search_mem0_memories query w) = Returned s
    /\ s = BOOKS ++ py " Relevant memories found for this query: " ++ str r
    /\ length s = (42 + length (str r))%nat.
Proof.
  intros H. eexists. split; [apply (search_returned w _ _ H)|].
  split; [reflexivity|].
  rewrite !List.length_app. reflexivity.
Qed.

(** A client that returns [None]. *)
Lemma search_success_embeds_result_None :
  world_quiet (client_search (py "cats") (py "reddit_user")) = Returned PyNone
  /\ exists s,
    snd (search_mem0_memories (py "cats") world_quiet) = Returned s
    /\ s = BOOKS ++ py " Relevant memories found for this query: "
             ++ py "None"
    /\ length s = (42 + 4)%nat.
Proof.
  split; [reflexivity|].
  apply (search_success_embeds_result world_quiet (py "cats") PyNone).
  reflexivity.
Defined.

(** ** Supervisor loop: the paths of one pass *)

Lemma dispatch_handled (w : world) (e : exn) :
  handled w e (fst (dispatch handlers e w)) (snd (dispatch handlers e w)).
Proof.
  rewrite dispatch_handlers.
  destruct (isinstance e KeyboardInterrupt) eqn:Hk.
  - destruct (w shutdown_notice) as [v|e'] eqn:Hs; simpl.
    + apply handled_break; assumption.
    + apply handled_break_failed; assumption.
  - destruct (isinstance e Exception) eqn:He; [|apply handled_not; assumption].
    destruct (w (error_report e)) as [v|e'] eqn:Hr;
      [|apply handled_report_failed; assumption].
    destruct (w (asyncio_sleep 5)) as [d|e'] eqn:Hd; simpl.
    + apply handled_retry; assumption.
    + apply handled_backoff_failed; assumption.
Qed.

Lemma cycle_tried (w : world) :
  match snd (cycle w) with
  | Returned c => c = Continue /\ tried w (fst (cycle w)) None
  | Raised e => tried w (fst (cycle w)) (Some e)
  end.
Proof.
  rewrite cycle_unfold.
  destruct (w cycle_start) as [a|e] eqn:Ha; [|apply tried_start; assumption].
  destruct (w crew_kickoff) as [b|e] eqn:Hb;
    [|apply tried_kickoff; assumption].
  destruct (w (asyncio_sleep 1)) as [c|e] eqn:Hc; simpl.
  - split; [reflexivity|]. apply tried_done; assumption.
  - apply tried_idle; assumption.
Qed.

(** Every pass through the body of the loop takes one of the paths. *)
Lemma loop_body_passed (w : world) :
  passed w (fst (loop_body w)) (snd (loop_body w)).
Proof.
  rewrite loop_body_unfold.
  pose proof (cycle_tried w) as Ht.
  destruct (cycle w) as [t [c|e]]; simpl in Ht.
  - destruct Ht as [-> Ht]. simpl. apply passed_done. exact Ht.
  - pose proof (dispatch_handled w e) as Hh.
    destruct (dispatch handlers e w) as [t' r]. simpl in *.
    apply (passed_handled w t e t' r Ht Hh).
Qed.

Lemma pystr_eqb_eq (a b : pystr) : pystr_eqb a b = true -> a = b.
Proof.
  revert b; induction a as [|x a IH]; intros [|y b] H; try discriminate;
    [reflexivity|].
  simpl in H. apply andb_prop in H as [Hx Ha].
  apply N.eqb_eq in Hx. subst. f_equal. exact (IH _ Ha).
Qed.

Lemma pystr_eqb_refl (a : pystr) : pystr_eqb a a = true.
Proof.
  induction a as [|x a IH]; [reflexivity|].
  simpl. rewrite N.eqb_refl. exact IH.
Qed.

Lemma in_try_cases (c : call) :
  in_try c = true ->
  c = cycle_start \/ c = crew_kickoff \/ c = asyncio_sleep 1.
Proof.
  destruct c; try discriminate; simpl; intros H.
  - left. unfold cycle_start. f_equal. exact (pystr_eqb_eq _ _ H).
  - right. left. reflexivity.
  - right. right. destruct delay as [|[]]; try discriminate. reflexivity.
Qed.

Lemma in_try_cycle_start : in_try cycle_start = true.
Proof. vm_compute. reflexivity. Qed.

Lemma in_try_shutdown_notice : in_try shutdown_notice = false.
Proof. vm_compute. reflexivity. Qed.

(** The body of the [try] is cut short by the call it made last. *)
Lemma tried_raised (w : world) (t : trace) (e : exn) :
  tried w t (Some e) ->
  exists pre c, t = pre ++ [(c, Raised e)] /\ in_try c = true
                /\ Forall (fun ev => exists v, snd ev = Returned v) pre.
Proof.
  intros H. inversion H; subst.
  - exists [], cycle_start. split; [reflexivity|].
    split; [apply in_try_cycle_start|constructor].
  - exists [(cycle_start, Returned a)], crew_kickoff. split; [reflexivity|].
    split; [reflexivity|]. repeat constructor. eexists; reflexivity.
  - exists [(cycle_start, Returned a); (crew_kickoff, Returned b)],
      (asyncio_sleep 1).
    split; [reflexivity|]. split; [reflexivity|].
    repeat constructor; eexists; reflexivity.
Qed.

(** ** Supervisor loop: how a run ends *)

Lemma main_loop_stopped (fuel : nat) (w : nat -> world) (i : nat) :
  snd (main_loop fuel w i) = Stopped ->
  exists pre c e v,
    fst (main_loop fuel w i)
    = pre ++ [(c, Raised e); (shutdown_notice, Returned v)]
    /\ in_try c = true /\ isinstance e KeyboardInterrupt = true.
Proof.
  revert i; induction fuel as [|fuel IH]; intros i; [discriminate|].
  rewrite main_loop_S. pose proof (loop_body_passed (w i)) as Hp.
  destruct (loop_body (w i)) as [t [[|]|e]]; simpl in Hp.
  - specialize (IH (S i)). destruct (main_loop fuel w (S i)) as [t' s].
    simpl in *. intros Hs. destruct (IH Hs) as (pre & c & e & v & -> & Hc & He).
    exists (t ++ pre), c, e, v. rewrite app_assoc. auto.
  - intros _. simpl. inversion Hp as [|t0 e t1 r Ht Hh]; subst.
    inversion Hh; subst.
    destruct (tried_raised _ _ _ Ht) as (pre & c & -> & Hc & _).
    exists pre, c, e, v. rewrite <- app_assoc. auto.
  - discriminate.
Qed.

Lemma main_loop_propagated (fuel : nat) (w : nat -> world) (i : nat)
    (e : exn) :
  snd (main_loop fuel w i) = Propagated e ->
  exists pre c,
    fst (main_loop fuel w i) = pre ++ [(c, Raised e)]
    /\ ((in_try c = true /\ isinstance e KeyboardInterrupt = false
         /\ isinstance e Exception = false)
        \/ c = shutdown_notice \/ (exists e0, c = error_report e0)
        \/ c = asyncio_sleep 5).
Proof.
  revert i; induction fuel as [|fuel IH]; intros i; [discriminate|].
  rewrite main_loop_S. pose proof (loop_body_passed (w i)) as Hp.
  destruct (loop_body (w i)) as [t [[|]|e1]]; simpl in Hp.
  - specialize (IH (S i)). destruct (main_loop fuel w (S i)) as [t' s].
    simpl in *. intros Hs. destruct (IH Hs) as (pre & c & -> & Hc).
    exists (t ++ pre), c. rewrite app_assoc. auto.
  - discriminate.
  - intros [= <-]. simpl. inversion Hp as [|t0 e t1 r Ht Hh]; subst.
    destruct (tried_raised _ _ _ Ht) as (pre & c & -> & Hc & _).
    inversion Hh; subst.
    + exists (pre ++ [(c, Raised e)]), shutdown_notice. auto.
    + exists (pre ++ [(c, Raised e)]), (error_report e). eauto 6.
    + exists ((pre ++ [(c, Raised e)]) ++ [(error_report e, Returned v)]),
        (asyncio_sleep 5).
      rewrite <- !app_assoc. simpl. auto 6.
    + exists pre, c. rewrite app_nil_r. auto.
Qed.

(** X6.  A run of the loop that was left by [break] ends with a call of
    the [try] raising [KeyboardInterrupt] followed by the shutdown
    message: an interrupt is the only way to the clean stop. *)
Theorem stop_only_by_interrupt (fuel : nat) (w : nat -> world) (i : nat) :
  snd (main_loop fuel w i) = Stopped ->
  exists pre c e v,
    fst (main_loop fuel w i)
    = pre ++ [(c, Raised e); (shutdown_notice, Returned v)]
    /\ (c = cycle_start \/ c = crew_kickoff \/ c = asyncio_sleep 1)
    /\ exn_cls e = KeyboardInterrupt.
Proof.
  intros H. destruct (main_loop_stopped fuel w i H) as (pre & c & e & v & Ht & Hc & He).
  exists pre, c, e, v. split; [exact Ht|]. split.
  - exact (in_try_cases c Hc).
  - apply isinstance_KeyboardInterrupt. exact He.
Qed.

(** Ctrl-C during the task runner of the second iteration. *)
Lemma stop_only_by_interrupt_kickoff :
  snd (main_loop 5 (raising_at 1 is_kickoff interrupt) 0) = Stopped
  /\ exists pre c e v,
    fst (main_loop 5 (raising_at 1 is_kickoff interrupt) 0)
    = pre ++ [(c, Raised e); (shutdown_notice, Returned v)]
    /\ (c = cycle_start \/ c = crew_kickoff \/ c = asyncio_sleep 1)
    /\ exn_cls e = KeyboardInterrupt.
Proof.
  split; [reflexivity|].
  apply (stop_only_by_interrupt 5 (raising_at 1 is_kickoff interrupt) 0).
  reflexivity.
Defined.

(** X7.  An exception leaves the loop only in two ways: it was raised by
    a call of the [try] and is neither a [KeyboardInterrupt] nor an
    instance of [Exception], or it was raised inside an [except] clause,
    by the shutdown message, the error report or the back-off delay.  In
    both cases the raising call is the last thing the loop did. *)
Theorem exception_leaves_loop_two_ways (fuel : nat) (w : nat -> world)
    (i : nat) (e : exn) :
  snd (main_loop fuel w i) = Propagated e ->
  exists pre c,
    fst (main_loop fuel w i) = pre ++ [(c, Raised e)]
    /\ (((c = cycle_start \/ c = crew_kickoff \/ c = asyncio_sleep 1)
         /\ isinstance e KeyboardInterrupt = false
         /\ isinstance e Exception = false)
        \/ c = shutdown_notice \/ (exists e0, c = error_report e0)
        \/ c = asyncio_sleep 5).
Proof.
  intros H. destruct (main_loop_propagated fuel w i e H) as (pre & c & Ht & Hc).
  exists pre, c. split; [exact Ht|].
  destruct Hc as [(Hc & Hk & He)|Hc]; [left|right; exact Hc].
  split; [exact (in_try_cases c Hc)|]. split; assumption.
Qed.

(** The error report of the first iteration raises [OSError]. *)
Lemma exception_leaves_loop_two_ways_report :
  let OSError := mk_exn (ExceptionSubclass "OSError") (py "disk full") in
  let w : nat -> world :=
    fun _ c =>
      match c with
      | crew_kickoff => Raised TimeoutError_timed_out
      | logger_error _ => Raised OSError
      | _ => Returned PyNone
      end in
  snd (main_loop 3 w 0) = Propagated OSError
  /\ exists pre c,
    fst (main_loop 3 w 0) = pre ++ [(c, Raised OSError)]
    /\ (((c = cycle_start \/ c = crew_kickoff \/ c = asyncio_sleep 1)
         /\ isinstance OSError KeyboardInterrupt = false
         /\ isinstance OSError Exception = false)
        \/ c = shutdown_notice \/ (exists e0, c = error_report e0)
        \/ c = asyncio_sleep 5).
Proof.
  intros OSError w. split; [reflexivity|].
  apply (exception_leaves_loop_two_ways 3 w 0 OSError). reflexivity.
Defined.

(** ** Supervisor loop: the order of the calls *)

Lemma obeys_spec (rule : event -> option (call -> bool)) (t : trace) :
  obeys rule t = true ->
  forall pre ev next post,
    t = pre ++ ev :: post -> rule ev = Some next ->
    exists c o post', post = (c, o) :: post' /\ next c = true.
Proof.
  intros Ht pre; revert t Ht; induction pre as [|x pre IH];
    intros t Ht ev next post -> Hr.
  - simpl in Ht. rewrite Hr in Ht. destruct post as [|[c o] post'];
      [discriminate|].
    apply andb_prop in Ht as [Hn _]. eauto.
  - refine (IH (pre ++ ev :: post) _ ev next post eq_refl Hr).
    simpl in Ht. destruct (rule x) as [n|]; [|exact Ht].
    destruct (pre ++ ev :: post) as [|[c o] rest]; [discriminate|].
    apply andb_prop in Ht as [_ Ht]. exact Ht.
Qed.

Lemma obeys_none (rule : event -> option (call -> bool)) (ev : event)
    (rest : trace) :
  rule ev = None -> obeys rule (ev :: rest) = obeys rule rest.
Proof. intros H. simpl. rewrite H. reflexivity. Qed.

Lemma obeys_some (rule : event -> option (call -> bool)) (ev : event)
    (next : call -> bool) (c : call) (o : outcome pyval) (rest : trace) :
  rule ev = Some next -> next c = true ->
  obeys rule (ev :: (c, o) :: rest) = obeys rule ((c, o) :: rest).
Proof. intros H Hn. cbn [obeys]. rewrite H, Hn. reflexivity. Qed.

Lemma loop_rule_start (a : pyval) :
  loop_rule (cycle_start, Returned a) = Some is_kickoff.
Proof. vm_compute. reflexivity. Qed.

Lemma loop_rule_shutdown (o : outcome pyval) :
  loop_rule (shutdown_notice, o) = None.
Proof. destruct o; vm_compute; reflexivity. Qed.

Lemma loop_rule_raised (c : call) (e : exn) :
  loop_rule (c, Raised e) =
  if in_try c then
    if isinstance e KeyboardInterrupt then Some is_shutdown_notice
    else if isinstance e Exception then Some (is_error_report e)
    else None
  else None.
Proof. destruct c; reflexivity. Qed.

Lemma is_error_report_refl (e : exn) : is_error_report e (error_report e) = true.
Proof. apply pystr_eqb_refl. Qed.

Lemma is_shutdown_notice_refl : is_shutdown_notice shutdown_notice = true.
Proof. vm_compute. reflexivity. Qed.

(** What the body of the [try] did obeys the rule up to its last call. *)
Lemma obeys_tried (w : world) (t : trace) (r : option exn) (t' : trace) :
  tried w t r ->
  obeys loop_rule (t ++ t') =
  match r with
  | None => obeys loop_rule t'
  | Some e =>
      match t' with
      | [] =>
          if isinstance e KeyboardInterrupt then false
          else if isinstance e Exception then false else true
      | (c, _) :: _ =>
          if isinstance e KeyboardInterrupt
          then is_shutdown_notice c && obeys loop_rule t'
          else if isinstance e Exception
               then is_error_report e c && obeys loop_rule t'
               else obeys loop_rule t'
      end
  end.
Proof.
  assert (Hlast : forall c e, in_try c = true ->
            obeys loop_rule ((c, Raised e) :: t') =
            match t' with
            | [] =>
                if isinstance e KeyboardInterrupt then false
                else if isinstance e Exception then false else true
            | (c, _) :: _ =>
                if isinstance e KeyboardInterrupt
                then is_shutdown_notice c && obeys loop_rule t'
                else if isinstance e Exception
                     then is_error_report e c && obeys loop_rule t'
                     else obeys loop_rule t'
            end).
  { intros c e Hc. cbn [obeys]. rewrite loop_rule_raised, Hc.
    destruct (isinstance e KeyboardInterrupt);
      [|destruct (isinstance e Exception)];
      destruct t' as [|[c' o'] t'']; reflexivity. }
  intros []; cbn [app].
  - apply Hlast, in_try_cycle_start.
  - rewrite (obeys_some loop_rule (cycle_start, Returned a) is_kickoff
               crew_kickoff _ _ (loop_rule_start a) eq_refl).
    apply Hlast. reflexivity.
  - rewrite (obeys_some loop_rule (cycle_start, Returned a) is_kickoff
               crew_kickoff _ _ (loop_rule_start a) eq_refl).
    rewrite (obeys_some loop_rule (crew_kickoff, Returned b) _
               (asyncio_sleep 1) _ _ eq_refl eq_refl).
    apply Hlast. reflexivity.
  - rewrite (obeys_some loop_rule (cycle_start, Returned a) is_kickoff
               crew_kickoff _ _ (loop_rule_start a) eq_refl).
    rewrite (obeys_some loop_rule (crew_kickoff, Returned b) _
               (asyncio_sleep 1) _ _ eq_refl eq_refl).
    apply obeys_none. reflexivity.
Qed.

Lemma obeys_passed (w : world) (t : trace) (r : outcome ctrl) (t' : trace) :
  passed w t r -> obeys loop_rule (t ++ t') = obeys loop_rule t'.
Proof.
  intros [t0 Ht|t0 e t1 r0 Ht Hh].
  - exact (obeys_tried w t0 None t' Ht).
  - rewrite <- app_assoc, (obeys_tried w t0 (Some e) (t1 ++ t') Ht).
    destruct Hh as [v Hk Hs|e' Hk Hs|e' Hk He Hr|v e' Hk He Hr Hd
                   |v d Hk He Hr Hd|Hk He]; cbn [app]; rewrite Hk, ?He.
    + rewrite is_shutdown_notice_refl. cbn [andb].
      apply obeys_none, loop_rule_shutdown.
    + rewrite is_shutdown_notice_refl. cbn [andb].
      apply obeys_none, loop_rule_shutdown.
    + rewrite is_error_report_refl. cbn [andb].
      apply obeys_none. reflexivity.
    + rewrite is_error_report_refl. cbn [andb].
      rewrite (obeys_some loop_rule (error_report e, Returned v) _
                 (asyncio_sleep 5) _ _ eq_refl eq_refl).
      apply obeys_none. reflexivity.
    + rewrite is_error_report_refl. cbn [andb].
      rewrite (obeys_some loop_rule (error_report e, Returned v) _
                 (asyncio_sleep 5) _ _ eq_refl eq_refl).
      apply obeys_none. reflexivity.
    + destruct t' as [|[c o] t'']; reflexivity.
Qed.

(** Every run of the loop obeys the rule. *)
Lemma main_loop_obeys (fuel : nat) (w : nat -> world) (i : nat) :
  obeys loop_rule (fst (main_loop fuel w i)) = true.
Proof.
  revert i; induction fuel as [|fuel IH]; intros i; [reflexivity|].
  rewrite main_loop_S. pose proof (loop_body_passed (w i)) as Hp.
  destruct (loop_body (w i)) as [t [[|]|e]]; cbn [fst snd] in Hp.
  - specialize (IH (S i)). destruct (main_loop fuel w (S i)) as [t' s].
    cbn [fst] in *. rewrite (obeys_passed _ _ _ t' Hp). exact IH.
  - cbn [fst]. rewrite <- (app_nil_r t), (obeys_passed _ _ _ [] Hp).
    reflexivity.
  - cbn [fst]. rewrite <- (app_nil_r t), (obeys_passed _ _ _ [] Hp).
    reflexivity.
Qed.

(** X8.  In every run of the loop, a cycle-start message that was logged
    is directly followed by the call of the task runner. *)
Theorem start_then_kickoff (fuel : nat) (w : nat -> world) (i : nat)
    (pre post : trace) (a : pyval) :
  fst (main_loop fuel w i) = pre ++ (cycle_start, Returned a) :: post ->
  exists o post', post = (crew_kickoff, o) :: post'.
Proof.
  intros H.
  destruct (obeys_spec _ _ (main_loop_obeys fuel w i) pre _ _ post H
              (loop_rule_start a)) as (c & o & post' & -> & Hc).
  destruct c; try discriminate Hc. eauto.
Qed.

(** One quiet iteration. *)
Lemma start_then_kickoff_quiet :
  fst (main_loop 1 (fun _ => world_quiet) 0)
  = [] ++ (cycle_start, Returned PyNone)
       :: [(crew_kickoff, Returned PyNone); (asyncio_sleep 1, Returned PyNone)]
  /\ exists o post',
      [(crew_kickoff, Returned PyNone); (asyncio_sleep 1, Returned PyNone)]
      = (crew_kickoff, o) :: post'.
Proof.
  split; [reflexivity|].
  apply (start_then_kickoff 1 (fun _ => world_quiet) 0 [] _ PyNone).
  reflexivity.
Defined.

(** X9.  In every run of the loop, a call of the [try] that raised an
    instance of [Exception] is directly followed by the error report with
    the text of that exception. *)
Theorem failure_then_report (fuel : nat) (w : nat -> world) (i : nat)
    (pre post : trace) (c : call) (e : exn) :
  fst (main_loop fuel w i) = pre ++ (c, Raised e) :: post ->
  c = cycle_start \/ c = crew_kickoff \/ c = asyncio_sleep 1 ->
  isinstance e Exception = true ->
  exists o post',
    post = (logger_error (py "Error in agent loop: " ++ exn_str e), o) :: post'.
Proof.
  intros H Hc He.
  assert (Hr : loop_rule (c, Raised e) = Some (is_error_report e)).
  { rewrite loop_rule_raised, (Exception_not_KeyboardInterrupt e He), He.
    destruct Hc as [-> | [-> | ->]]; [rewrite in_try_cycle_start| |]; reflexivity. }
  destruct (obeys_spec _ _ (main_loop_obeys fuel w i) pre _ _ post H Hr)
    as (c' & o & post' & -> & Hc').
  destruct c'; try discriminate Hc'. simpl in Hc'.
  apply pystr_eqb_eq in Hc'. subst. eauto.
Qed.

(** The task runner times out in the first iteration. *)
Lemma failure_then_report_timeout :
  fst (main_loop 1 (raising_at 0 is_kickoff TimeoutError_timed_out) 0)
  = [(cycle_start, Returned PyNone)]
      ++ (crew_kickoff, Raised TimeoutError_timed_out)
      :: [(logger_error (py "Error in agent loop: timed out"), Returned PyNone);
          (asyncio_sleep 5, Returned PyNone)]
  /\ isinstance TimeoutError_timed_out Exception = true
  /\ exists o post',
      [(logger_error (py "Error in agent loop: timed out"), Returned PyNone);
       (asyncio_sleep 5, Returned PyNone)]
      = (logger_error (py "Error in agent loop: "
                         ++ exn_str TimeoutError_timed_out), o) :: post'.
Proof.
  split; [reflexivity|]. split; [reflexivity|].
  apply (failure_then_report 1
           (raising_at 0 is_kickoff TimeoutError_timed_out) 0
           [(cycle_start, Returned PyNone)] _ crew_kickoff
           TimeoutError_timed_out).
  - reflexivity.
  - right. left. reflexivity.
  - reflexivity.
Defined.

(** X10.  In every run of the loop, an error report that was logged is
    directly followed by the call [asyncio.sleep(5)]: the back-off delay
    is the same after every failure. *)
Theorem report_then_backoff (fuel : nat) (w : nat -> world) (i : nat)
    (pre post : trace) (e : exn) (v : pyval) :
  fst (main_loop fuel w i) = pre ++ (error_report e, Returned v) :: post ->
  exists o post', post = (asyncio_sleep 5, o) :: post'.
Proof.
  intros H.
  destruct (obeys_spec _ _ (main_loop_obeys fuel w i) pre _ is_backoff_sleep
              post H eq_refl) as (c & o & post' & -> & Hc).
  destruct c; try discriminate Hc.
  destruct delay as [|p]; [discriminate Hc|].
  do 3 (try destruct p as [p|p|]; try discriminate Hc). eauto.
Qed.

(** The task runner times out in the first iteration. *)
Lemma report_then_backoff_timeout :
  fst (main_loop 1 (raising_at 0 is_kickoff TimeoutError_timed_out) 0)
  = [(cycle_start, Returned PyNone);
     (crew_kickoff, Raised TimeoutError_timed_out)]
      ++ (error_report TimeoutError_timed_out, Returned PyNone)
      :: [(asyncio_sleep 5, Returned PyNone)]
  /\ exists o post',
      [(asyncio_sleep 5, Returned PyNone)] = (asyncio_sleep 5, o) :: post'.
Proof.
  split; [reflexivity|].
  apply (report_then_backoff 1
           (raising_at 0 is_kickoff TimeoutError_timed_out) 0
           [(cycle_start, Returned PyNone);
            (crew_kickoff, Raised TimeoutError_timed_out)] _
           TimeoutError_timed_out PyNone).
  reflexivity.
Defined.

(** X11.  In every run of the loop, a call of the [try] that raised
    [KeyboardInterrupt], the task runner included, is directly followed
    by the shutdown message. *)
Theorem interrupt_then_notice (fuel : nat) (w : nat -> world) (i : nat)
    (pre post : trace) (c : call) (e : exn) :
  fst (main_loop fuel w i) = pre ++ (c, Raised e) :: post ->
  c = cycle_start \/ c = crew_kickoff \/ c = asyncio_sleep 1 ->
  exn_cls e = KeyboardInterrupt ->
  exists o post', post = (shutdown_notice, o) :: post'.
Proof.
  intros H Hc He. apply isinstance_KeyboardInterrupt in He.
  assert (Hr : loop_rule (c, Raised e) = Some is_shutdown_notice).
  { rewrite loop_rule_raised, He.
    destruct Hc as [-> | [-> | ->]]; [rewrite in_try_cycle_start| |]; reflexivity. }
  destruct (obeys_spec _ _ (main_loop_obeys fuel w i) pre _ _ post H Hr)
    as (c' & o & post' & -> & Hc').
  destruct c'; try discriminate Hc'. simpl in Hc'.
  apply pystr_eqb_eq in Hc'. subst. eauto.
Qed.

(** Ctrl-C during the task runner of the first iteration. *)
Lemma interrupt_then_notice_kickoff :
  fst (main_loop 1 (raising_at 0 is_kickoff interrupt) 0)
  = [(cycle_start, Returned PyNone)]
      ++ (crew_kickoff, Raised interrupt)
      :: [(shutdown_notice, Returned PyNone)]
  /\ exn_cls interrupt = KeyboardInterrupt
  /\ exists o post',
      [(shutdown_notice, Returned PyNone)] = (shutdown_notice, o) :: post'.
Proof.
  split; [reflexivity|]. split; [reflexivity|].
  apply (interrupt_then_notice 1 (raising_at 0 is_kickoff interrupt) 0
           [(cycle_start, Returned PyNone)] _ crew_kickoff interrupt).
  - reflexivity.
  - right. left. reflexivity.
  - reflexivity.
Defined.

(** ** Supervisor loop: the calls it makes *)

Lemma passed_calls (w : world) (t : trace) (r : outcome ctrl) :
  passed w t r -> Forall (fun ev => loop_call (fst ev)) t.
Proof.
  assert (Ht : forall t o, tried w t o ->
                           Forall (fun ev => loop_call (fst ev)) t).
  { intros t0 o [];
      repeat (constructor; [unfold loop_call; cbn [fst]; auto 8|]);
      constructor. }
  assert (Hh : forall e t r, handled w e t r ->
                             Forall (fun ev => loop_call (fst ev)) t).
  { intros e t0 r0 [];
      repeat (constructor; [unfold loop_call; cbn [fst]; eauto 8|]);
      constructor. }
  intros [t0 H|t0 e t1 r0 H H'].
  - exact (Ht _ _ H).
  - apply Forall_app. split; [exact (Ht _ _ H)|exact (Hh _ _ _ H')].
Qed.

Lemma main_loop_calls (fuel : nat) (w : nat -> world) (i : nat) :
  Forall (fun ev => loop_call (fst ev)) (fst (main_loop fuel w i)).
Proof.
  revert i; induction fuel as [|fuel IH]; intros i; [constructor|].
  rewrite main_loop_S. pose proof (loop_body_passed (w i)) as Hp.
  apply passed_calls in Hp.
  destruct (loop_body (w i)) as [t [[|]|e]]; cbn [fst snd] in Hp;
    try exact Hp.
  specialize (IH (S i)). destruct (main_loop fuel w (S i)) as [t' s].
  cbn [fst] in *. apply Forall_app. split; assumption.
Qed.

(** X12.  The loop sleeps for 1 or for 5 and for nothing else: no run
    has a call [asyncio.sleep(d)] with another [d], however many
    failures came before. *)
Theorem delays_are_1_or_5 (fuel : nat) (w : nat -> world) (i : nat) (d : N) :
  In (asyncio_sleep d) (calls (fst (main_loop fuel w i))) ->
  d = 1 \/ d = 5.
Proof.
  intros H. unfold calls in H. apply in_map_iff in H as [[c o] [Hc Hin]].
  simpl in Hc. subst c.
  pose proof (main_loop_calls fuel w i) as Hall.
  rewrite List.Forall_forall in Hall. specialize (Hall _ Hin). simpl in Hall.
  destruct Hall as [H|[H|[H|[H|[[e H]|H]]]]]; try discriminate H;
    injection H as ->; auto.
Qed.

(** Five iterations in which the task runner always times out. *)
Lemma delays_are_1_or_5_timeouts :
  let w : nat -> world :=
    fun _ c =>
      match c with
      | crew_kickoff => Raised TimeoutError_timed_out
      | _ => Returned PyNone
      end in
  In (asyncio_sleep 5) (calls (fst (main_loop 5 w 0)))
  /\ (5 = 1 \/ 5 = 5).
Proof.
  intros w.
  assert (H : In (asyncio_sleep 5) (calls (fst (main_loop 5 w 0)))).
  { vm_compute. tauto. }
  split; [exact H|]. exact (delays_are_1_or_5 5 w 0 5 H).
Defined.

(** ** Supervisor loop: further scenarios *)

Lemma main_loop_continue (k m : nat) (w : nat -> world) (t tk : trace) :
  main_loop k w 0 = (t, Running) ->
  loop_body (w k) = (tk, Returned Continue) ->
  main_loop (S k + m) w 0
  = (t ++ tk ++ fst (main_loop m w (S k)), snd (main_loop m w (S k))).
Proof.
  intros Hk Hb.
  replace (S k + m)%nat with (k + S m)%nat by lia.
  rewrite main_loop_app, Hk, main_loop_S. simpl. rewrite Hb.
  destruct (main_loop m w (S k)) as [t' s]. reflexivity.
Qed.

(** X13.  The loop has made [k] iterations and is still looping.  When
    the task runner of iteration [k] raises [KeyboardInterrupt] and the
    shutdown message is logged, the loop is left by [break]: the idle
    delay is skipped, the status is [Stopped] and nothing propagates. *)
Theorem interrupt_in_kickoff_stops (w : nat -> world) (k m : nat)
    (t : trace) (e : exn) (a v : pyval) :
  main_loop k w 0 = (t, Running) ->
  w k cycle_start = Returned a ->
  w k crew_kickoff = Raised e ->
  isinstance e KeyboardInterrupt = true ->
  w k shutdown_notice = Returned v ->
  main_loop (S k + m) w 0
  = (t ++ [(cycle_start, Returned a); (crew_kickoff, Raised e);
           (shutdown_notice, Returned v)],
     Stopped).
Proof.
  intros Hk Ha He Hki Hv.
  assert (Hb : loop_body (w k)
               = ([(cycle_start, Returned a); (crew_kickoff, Raised e);
                   (shutdown_notice, Returned v)], Returned Break)).
  { rewrite loop_body_unfold, cycle_unfold, Ha, He, dispatch_handlers, Hki, Hv.
    reflexivity. }
  rewrite (main_loop_next k m w t Hk); rewrite Hb; [reflexivity|discriminate].
Qed.

(** Ctrl-C during the task runner of the third iteration. *)
Lemma interrupt_in_kickoff_stops_third_iteration :
  main_loop 2 (raising_at 2 is_kickoff interrupt) 0
  = (fst (main_loop 2 (fun _ => world_quiet) 0), Running)
  /\ isinstance interrupt KeyboardInterrupt = true
  /\ main_loop 7 (raising_at 2 is_kickoff interrupt) 0
     = (fst (main_loop 2 (fun _ => world_quiet) 0)
          ++ [(cycle_start, Returned PyNone);
              (crew_kickoff, Raised interrupt);
              (shutdown_notice, Returned PyNone)],
        Stopped).
Proof.
  split; [reflexivity|]. split; [reflexivity|].
  exact (interrupt_in_kickoff_stops (raising_at 2 is_kickoff interrupt) 2 4 _
           interrupt PyNone PyNone eq_refl eq_refl eq_refl eq_refl eq_refl).
Defined.

(** X14.  The loop has made [k] iterations and is still looping.  When
    the task runner of iteration [k] raises an [Exception] and the error
    report itself raises, whatever it raises, the loop ends there: the
    second exception leaves the loop, with no delay and no retry. *)
Theorem failed_report_ends_loop (w : nat -> world) (k m : nat)
    (t : trace) (e e' : exn) (a : pyval) :
  main_loop k w 0 = (t, Running) ->
  w k cycle_start = Returned a ->
  w k crew_kickoff = Raised e ->
  isinstance e Exception = true ->
  w k (error_report e) = Raised e' ->
  main_loop (S k + m) w 0
  = (t ++ [(cycle_start, Returned a); (crew_kickoff, Raised e);
           (error_report e, Raised e')],
     Propagated e').
Proof.
  intros Hk Ha He Hexc Hr.
  assert (Hb : loop_body (w k)
               = ([(cycle_start, Returned a); (crew_kickoff, Raised e);
                   (error_report e, Raised e')], Raised e')).
  { rewrite loop_body_unfold, cycle_unfold, Ha, He, dispatch_handlers,
      (Exception_not_KeyboardInterrupt e Hexc), Hexc, Hr. reflexivity. }
  rewrite (main_loop_next k m w t Hk); rewrite Hb; [reflexivity|discriminate].
Qed.

(** The task runner times out and the log handler raises [ValueError],
    itself an [Exception]. *)
Lemma failed_report_ends_loop_first_iteration :
  let ValueError := mk_exn (ExceptionSubclass "ValueError") (py "closed file") in
  let w : nat -> world :=
    fun _ c =>
      match c with
      | crew_kickoff => Raised TimeoutError_timed_out
      | logger_error _ => Raised ValueError
      | _ => Returned PyNone
      end in
  main_loop 0 w 0 = ([], Running)
  /\ isinstance TimeoutError_timed_out Exception = true
  /\ isinstance ValueError Exception = true
  /\ main_loop 4 w 0
     = ([(cycle_start, Returned PyNone);
         (crew_kickoff, Raised TimeoutError_timed_out);
         (error_report TimeoutError_timed_out, Raised ValueError)],
        Propagated ValueError).
Proof.
  intros ValueError w. split; [reflexivity|]. split; [reflexivity|].
  split; [reflexivity|].
  exact (failed_report_ends_loop w 0 3 [] TimeoutError_timed_out ValueError
           PyNone eq_refl eq_refl eq_refl eq_refl eq_refl).
Defined.

(** X15.  When the task runner raises the same [Exception] on every
    invocation and every other call returns, the loop never ends and
    never changes pace: after [fuel] iterations it is still looping, and
    its calls are [fuel] times the same four, the start message, the task
    runner, the error report and [asyncio.sleep(5)]. *)
Theorem constant_backoff_forever (w : nat -> world) (e : exn) :
  isinstance e Exception = true ->
  (forall i, w i crew_kickoff = Raised e) ->
  (forall i c, c <> crew_kickoff -> exists v, w i c = Returned v) ->
  forall fuel i,
    snd (main_loop fuel w i) = Running
    /\ calls (fst (main_loop fuel w i))
       = concat (repeat [cycle_start; crew_kickoff; error_report e;
                         asyncio_sleep 5] fuel).
Proof.
  intros He Hk Hret fuel; induction fuel as [|fuel IH]; intros i;
    [split; reflexivity|].
  rewrite main_loop_S, loop_body_unfold, cycle_unfold.
  destruct (Hret i cycle_start) as [a ->]; [discriminate|].
  rewrite Hk, dispatch_handlers, (Exception_not_KeyboardInterrupt e He), He.
  destruct (Hret i (error_report e)) as [v ->]; [discriminate|].
  destruct (Hret i (asyncio_sleep 5)) as [d ->]; [discriminate|].
  destruct (IH (S i)) as [Hs Hc].
  destruct (main_loop fuel w (S i)) as [t' s]. cbn [fst snd] in *.
  split; [exact Hs|]. unfold calls in *. cbn [app map fst repeat concat].
  rewrite Hc. reflexivity.
Qed.

(** The task runner always times out. *)
Lemma constant_backoff_forever_timeouts :
  let w : nat -> world :=
    fun _ c =>
      match c with
      | crew_kickoff => Raised TimeoutError_timed_out
      | _ => Returned PyNone
      end in
  isinstance TimeoutError_timed_out Exception = true
  /\ snd (main_loop 50 w 0) = Running
  /\ calls (fst (main_loop 50 w 0))
     = concat (repeat [cycle_start; crew_kickoff;
                       error_report TimeoutError_timed_out;
                       asyncio_sleep 5] 50).
Proof.
  intros w. split; [reflexivity|].
  apply (constant_backoff_forever w TimeoutError_timed_out).
  - reflexivity.
  - intros i. reflexivity.
  - intros i c Hc. exists PyNone. destruct c; try reflexivity.
    contradiction Hc. reflexivity.
Defined.

(** X16.  The loop has made [k] iterations and is still looping.  When
    the start message of iteration [k] raises an [Exception], that
    iteration does not invoke the task runner: it reports the error,
    sleeps 5, and the loop goes on with iteration [k + 1]. *)
Theorem failed_start_skips_task_runner (w : nat -> world) (k m : nat)
    (t : trace) (e : exn) (v d : pyval) :
  main_loop k w 0 = (t, Running) ->
  w k cycle_start = Raised e ->
  isinstance e Exception = true ->
  w k (error_report e) = Returned v ->
  w k (asyncio_sleep 5) = Returned d ->
  main_loop (S k + m) w 0
  = (t ++ [(cycle_start, Raised e); (error_report e, Returned v);
           (asyncio_sleep 5, Returned d)]
       ++ fst (main_loop m w (S k)),
     snd (main_loop m w (S k))).
Proof.
  intros Hk Hs He Hv Hd.
  apply (main_loop_continue k m w t _ Hk).
  rewrite loop_body_unfold, cycle_unfold, Hs, dispatch_handlers,
    (Exception_not_KeyboardInterrupt e He), He, Hv, Hd. reflexivity.
Qed.

(** The start message of the first iteration fails with [OSError]; the
    second iteration is quiet. *)
Lemma failed_start_skips_task_runner_first_iteration :
  let OSError := mk_exn (ExceptionSubclass "OSError") (py "disk full") in
  main_loop 0 (raising_at 0 is_cycle_start OSError) 0 = ([], Running)
  /\ isinstance OSError Exception = true
  /\ main_loop 2 (raising_at 0 is_cycle_start OSError) 0
     = ([(cycle_start, Raised OSError);
         (error_report OSError, Returned PyNone);
         (asyncio_sleep 5, Returned PyNone)]
          ++ [(cycle_start, Returned PyNone);
              (crew_kickoff, Returned PyNone);
              (asyncio_sleep 1, Returned PyNone)],
        Running).
Proof.
  intros OSError. split; [reflexivity|]. split; [reflexivity|].
  exact (failed_start_skips_task_runner
           (raising_at 0 is_cycle_start OSError) 0 1 [] OSError PyNone PyNone
           eq_refl eq_refl eq_refl eq_refl eq_refl).
Defined.

(** ** Session bootstrap: environment and calls *)

(** [setup_mcp_tools] builds the descriptor from the environment that
    lines 28-30 leave and, with it, makes the calls of [connect]; with no
    descriptor it makes none. *)
Lemma setup_mcp_tools_connect (dotenv environ : gmap string pystr)
    (w : world) :
  setup_mcp_tools dotenv environ w =
  match CORAL_SERVER_URL
          (getenv (effective_environ dotenv environ) "CORAL_SSE_URL")
          (getenv (effective_environ dotenv environ) "CORAL_AGENT_ID") with
  | Returned url => connect url w
  | Raised e => ([], Raised e)
  end.
Proof.
  unfold setup_mcp_tools, effective_environ.
  destruct (getenv environ "CORAL_ORCHESTRATION_RUNTIME");
    unfold bind at 1, lift;
    match goal with
    | |- context [CORAL_SERVER_URL ?b ?a] =>
        destruct (CORAL_SERVER_URL b a) as [url|e]; [|reflexivity]
    end;
    match goal with
    | |- (let (_, _) := ?x in _) = ?y => change y with x; destruct x
    end; reflexivity.
Qed.

Lemma connect_unfold (url : pystr) (w : world) :
  connect url w =
  match w (print (py "Connecting to Coral Server: " ++ url)) with
  | Raised e =>
      ([(print (py "Connecting to Coral Server: " ++ url), Raised e)],
       Raised e)
  | Returned v1 =>
      match w (logger_info (py "Connecting to Coral Server: " ++ url)) with
      | Raised e =>
          ([(print (py "Connecting to Coral Server: " ++ url), Returned v1);
            (logger_info (py "Connecting to Coral Server: " ++ url), Raised e)],
           Raised e)
      | Returned v2 =>
          match w (MCPServerAdapter (server_params_of url)) with
          | Raised e =>
              ([(print (py "Connecting to Coral Server: " ++ url), Returned v1);
                (logger_info (py "Connecting to Coral Server: " ++ url),
                 Returned v2);
                (MCPServerAdapter (server_params_of url), Raised e)],
               Raised e)
          | Returned adapter =>
              ([(print (py "Connecting to Coral Server: " ++ url), Returned v1);
                (logger_info (py "Connecting to Coral Server: " ++ url),
                 Returned v2);
                (MCPServerAdapter (server_params_of url), Returned adapter);
                (adapter_tools adapter, w (adapter_tools adapter))],
               w (adapter_tools adapter))
          end
      end
  end.
Proof.
  cbv [connect bind perform].
  destruct (w (print _)); [|reflexivity].
  destruct (w (logger_info _)); [|reflexivity].
  destruct (w (MCPServerAdapter _)); reflexivity.
Qed.

(** X17.  With [CORAL_ORCHESTRATION_RUNTIME] set, [setup_mcp_tools] does
    not read the [.env] file: whatever the file holds, the calls and the
    result are the same. *)
Theorem runtime_set_ignores_dotenv (dotenv1 dotenv2 environ : gmap string pystr)
    (w : world) (runtime : pystr) :
  environ !! "CORAL_ORCHESTRATION_RUNTIME"%string = Some runtime ->
  setup_mcp_tools dotenv1 environ w = setup_mcp_tools dotenv2 environ w.
Proof.
  intros H. rewrite !setup_mcp_tools_connect.
  unfold effective_environ, getenv. rewrite H. reflexivity.
Qed.

(** Under the orchestrator, a [.env] file with another URL changes
    nothing. *)
Lemma runtime_set_ignores_dotenv_docker :
  let environ : gmap string pystr :=
    {[ "CORAL_ORCHESTRATION_RUNTIME"%string := py "docker";
       "CORAL_SSE_URL"%string := py "https://x/sse";
       "CORAL_AGENT_ID"%string := py "A1" ]} in
  let dotenv : gmap string pystr :=
    {[ "CORAL_SSE_URL"%string := py "http://localhost/sse" ]} in
  environ !! "CORAL_ORCHESTRATION_RUNTIME"%string = Some (py "docker")
  /\ setup_mcp_tools dotenv environ world_quiet
     = setup_mcp_tools ∅ environ world_quiet.
Proof.
  intros environ dotenv.
  assert (H : environ !! "CORAL_ORCHESTRATION_RUNTIME"%string
              = Some (py "docker")) by reflexivity.
  split; [exact H|].
  exact (runtime_set_ignores_dotenv dotenv ∅ environ world_quiet _ H).
Defined.

(** X18.  With [CORAL_ORCHESTRATION_RUNTIME] unset, the values of
    [CORAL_SSE_URL] and [CORAL_AGENT_ID] in the [.env] file win over the
    ones of the environment: the descriptor is built from the file's. *)
Theorem dotenv_overrides_environment (dotenv environ : gmap string pystr)
    (w : world) (base_url agent_id : pystr) :
  environ !! "CORAL_ORCHESTRATION_RUNTIME"%string = None ->
  dotenv !! "CORAL_SSE_URL"%string = Some base_url ->
  dotenv !! "CORAL_AGENT_ID"%string = Some agent_id ->
  setup_mcp_tools dotenv environ w =
  match CORAL_SERVER_URL (PyStr base_url) (PyStr agent_id) with
  | Returned url => connect url w
  | Raised e => ([], Raised e)
  end.
Proof.
  intros Hr Hb Ha. rewrite setup_mcp_tools_connect.
  unfold effective_environ, getenv, load_dotenv. rewrite Hr.
  rewrite (lookup_union_Some_l dotenv environ _ _ Hb),
    (lookup_union_Some_l dotenv environ _ _ Ha).
  reflexivity.
Qed.

(** The environment says [A1], the file says [A2]: the session is opened
    as [A2]. *)
Lemma dotenv_overrides_environment_A2 :
  let environ : gmap string pystr :=
    {[ "CORAL_SSE_URL"%string := py "https://x/sse";
       "CORAL_AGENT_ID"%string := py "A1" ]} in
  let dotenv : gmap string pystr :=
    {[ "CORAL_SSE_URL"%string := py "https://x/sse";
       "CORAL_AGENT_ID"%string := py "A2" ]} in
  environ !! "CORAL_ORCHESTRATION_RUNTIME"%string = None
  /\ setup_mcp_tools dotenv environ world_quiet
     = connect (py "https://x/sse?agentId=A2" ++ description_param) world_quiet.
Proof.
  intros environ dotenv.
  assert (Hr : environ !! "CORAL_ORCHESTRATION_RUNTIME"%string = None)
    by reflexivity.
  assert (Hb : dotenv !! "CORAL_SSE_URL"%string = Some (py "https://x/sse"))
    by reflexivity.
  assert (Ha : dotenv !! "CORAL_AGENT_ID"%string = Some (py "A2"))
    by reflexivity.
  split; [exact Hr|].
  rewrite (dotenv_overrides_environment dotenv environ world_quiet _ _
             Hr Hb Ha).
  reflexivity.
Defined.

(** X19.  Line 21 loads the [.env] file into the environment without
    override before [setup_mcp_tools] runs.  After both loads: when
    [CORAL_ORCHESTRATION_RUNTIME] is set neither in the process
    environment nor in the file, every variable of the file wins over the
    environment; when it is set in either of them, the file counting,
    every variable of the environment wins and the file only fills in
    the ones that are missing. *)
Theorem dotenv_loaded_twice (dotenv environ0 : gmap string pystr) :
  effective_environ dotenv (load_dotenv false dotenv environ0) =
  match (environ0 ∪ dotenv) !! "CORAL_ORCHESTRATION_RUNTIME"%string with
  | None => dotenv ∪ environ0
  | Some _ => environ0 ∪ dotenv
  end.
Proof.
  unfold effective_environ, getenv, load_dotenv.
  destruct ((environ0 ∪ dotenv) !! "CORAL_ORCHESTRATION_RUNTIME"%string);
    [reflexivity|].
  apply map_eq. intros k. rewrite !lookup_union.
  destruct (dotenv !! k), (environ0 !! k); reflexivity.
Qed.

(** ** Session bootstrap: failure and success *)

Lemma encode_utf8_from_raised (s : pystr) (n : nat) (e : exn) :
  encode_utf8_from n s = Raised e ->
  exn_cls e = ExceptionSubclass "UnicodeEncodeError"
  /\ Exists (fun c => utf8_char c = None) s.
Proof.
  revert n; induction s as [|c s IH]; intros n; simpl; [discriminate|].
  destruct (utf8_char c) as [bs|] eqn:Hc.
  - destruct (encode_utf8_from (S n) s) as [r|e'] eqn:Hr; [discriminate|].
    intros [= <-]. destruct (IH _ Hr) as [H1 H2].
    split; [exact H1|]. apply Exists_cons_tl. exact H2.
  - intros [= <-]. split; [reflexivity|]. apply Exists_cons_hd. exact Hc.
Qed.

(** X20.  When the descriptor cannot be built, [setup_mcp_tools] makes
    no call at all, neither print nor log nor connection: it raises the
    [UnicodeEncodeError] of [urlencode], and the identity then holds a
    character without UTF-8 encoding (a lone surrogate). *)
Theorem no_descriptor_no_call (dotenv environ : gmap string pystr)
    (w : world) (e : exn) :
  CORAL_SERVER_URL
    (getenv (effective_environ dotenv environ) "CORAL_SSE_URL")
    (getenv (effective_environ dotenv environ) "CORAL_AGENT_ID")
  = Raised e ->
  setup_mcp_tools dotenv environ w = ([], Raised e)
  /\ exn_cls e = ExceptionSubclass "UnicodeEncodeError"
  /\ Exists (fun c => utf8_char c = None)
       (str (getenv (effective_environ dotenv environ) "CORAL_AGENT_ID")).
Proof.
  intros H. split; [rewrite setup_mcp_tools_connect, H; reflexivity|].
  rewrite CORAL_SERVER_URL_form, quote_plus_form in H.
  destruct (encode_utf8 _) as [bs|e'] eqn:He; [discriminate|].
  injection H as <-. exact (encode_utf8_from_raised _ _ _ He).
Qed.

(** An identity read from an environment variable with a byte that is
    not UTF-8: Python holds it as the lone surrogate U+DC80. *)
Lemma no_descriptor_no_call_surrogate :
  let environ : gmap string pystr :=
    {[ "CORAL_ORCHESTRATION_RUNTIME"%string := py "docker";
       "CORAL_SSE_URL"%string := py "https://x/sse";
       "CORAL_AGENT_ID"%string := [65; 0xDC80] ]} in
  exists e,
    setup_mcp_tools ∅ environ world_quiet = ([], Raised e)
    /\ exn_cls e = ExceptionSubclass "UnicodeEncodeError"
    /\ exn_str e = py "'utf-8' codec can't encode character '\udc80' in position 1: surrogates not allowed".
Proof.
  intros environ.
  assert (H : exists e, CORAL_SERVER_URL
            (getenv (effective_environ ∅ environ) "CORAL_SSE_URL")
            (getenv (effective_environ ∅ environ) "CORAL_AGENT_ID")
          = Raised e
          /\ exn_str e = py "'utf-8' codec can't encode character '\udc80' in position 1: surrogates not allowed").
  { eexists. split; vm_compute; reflexivity. }
  destruct H as [e [H Hs]]. exists e.
  destruct (no_descriptor_no_call ∅ environ world_quiet e H) as (H1 & H2 & _).
  split; [exact H1|]. split; [exact H2|exact Hs].
Defined.

(** X21.  When [setup_mcp_tools] returns, it has made exactly four calls
    and all returned: it printed and logged the same line with the
    descriptor, built the adapter with that descriptor as [url], both
    timeouts 600 and transport [sse], and asked the adapter for its
    tools, which are the result. *)
Theorem setup_returns_after_four_calls (dotenv environ : gmap string pystr)
    (w : world) (tools : pyval) :
  snd (setup_mcp_tools dotenv environ w) = Returned tools ->
  exists url v1 v2 adapter,
    CORAL_SERVER_URL
      (getenv (effective_environ dotenv environ) "CORAL_SSE_URL")
      (getenv (effective_environ dotenv environ) "CORAL_AGENT_ID")
    = Returned url
    /\ fst (setup_mcp_tools dotenv environ w)
       = [ (print (py "Connecting to Coral Server: " ++ url), Returned v1);
           (logger_info (py "Connecting to Coral Server: " ++ url),
            Returned v2);
           (MCPServerAdapter
              [ (py "url", PyStr url); (py "timeout", PyInt 600);
                (py "sse_read_timeout", PyInt 600);
                (py "transport", PyStr (py "sse")) ],
            Returned adapter);
           (adapter_tools adapter, Returned tools) ].
Proof.
  rewrite setup_mcp_tools_connect.
  destruct (CORAL_SERVER_URL _ _) as [url|e]; [|discriminate].
  rewrite connect_unfold.
  destruct (w (print _)) as [v1|]; [|discriminate].
  destruct (w (logger_info _)) as [v2|]; [|discriminate].
  destruct (w (MCPServerAdapter _)) as [adapter|]; [|discriminate].
  cbn [fst snd]. intros H. rewrite H. exists url, v1, v2, adapter.
  split; reflexivity.
Qed.

(** A quiet world and the example environment. *)
Lemma setup_returns_after_four_calls_quiet :
  let environ : gmap string pystr :=
    {[ "CORAL_ORCHESTRATION_RUNTIME"%string := py "docker";
       "CORAL_SSE_URL"%string := py "https://x/sse";
       "CORAL_AGENT_ID"%string := py "A1" ]} in
  snd (setup_mcp_tools ∅ environ world_quiet) = Returned PyNone
  /\ exists url v1 v2 adapter,
    CORAL_SERVER_URL
      (getenv (effective_environ ∅ environ) "CORAL_SSE_URL")
      (getenv (effective_environ ∅ environ) "CORAL_AGENT_ID")
    = Returned url
    /\ fst (setup_mcp_tools ∅ environ world_quiet)
       = [ (print (py "Connecting to Coral Server: " ++ url), Returned v1);
           (logger_info (py "Connecting to Coral Server: " ++ url),
            Returned v2);
           (MCPServerAdapter
              [ (py "url", PyStr url); (py "timeout", PyInt 600);
                (py "sse_read_timeout", PyInt 600);
                (py "transport", PyStr (py "sse")) ],
            Returned adapter);
           (adapter_tools adapter, Returned PyNone) ].
Proof.
  intros environ.
  assert (H : snd (setup_mcp_tools ∅ environ world_quiet) = Returned PyNone)
    by (vm_compute; reflexivity).
  split; [exact H|].
  exact (setup_returns_after_four_calls ∅ environ world_quiet PyNone H).
Defined.

(** X22.  [setup_mcp_tools] handles no exception: when it raises, either
    no call was made and the descriptor could not be built, or the
    exception is the one of its last call, every call before that one
    returned, and no call came after. *)
Theorem setup_failure_is_first_failure (dotenv environ : gmap string pystr)
    (w : world) (e : exn) :
  snd (setup_mcp_tools dotenv environ w) = Raised e ->
  (fst (setup_mcp_tools dotenv environ w) = []
   /\ CORAL_SERVER_URL
        (getenv (effective_environ dotenv environ) "CORAL_SSE_URL")
        (getenv (effective_environ dotenv environ) "CORAL_AGENT_ID")
      = Raised e)
  \/ exists pre c,
      fst (setup_mcp_tools dotenv environ w) = pre ++ [(c, Raised e)]
      /\ Forall (fun ev => exists v, snd ev = Returned v) pre.
Proof.
  rewrite setup_mcp_tools_connect.
  destruct (CORAL_SERVER_URL _ _) as [url|e0];
    [|intros [= <-]; left; split; reflexivity].
  rewrite connect_unfold. intros H. right.
  destruct (w (print _)) as [v1|e1].
  2:{ injection H as <-. exists [], (print (py "Connecting to Coral Server: " ++ url)).
      split; [reflexivity|constructor]. }
  destruct (w (logger_info _)) as [v2|e2].
  2:{ injection H as <-. eexists [_], _. split; [reflexivity|].
      repeat (constructor; [eexists; reflexivity|]). constructor. }
  destruct (w (MCPServerAdapter _)) as [adapter|e3].
  2:{ injection H as <-. eexists [_; _], _. split; [reflexivity|].
      repeat (constructor; [eexists; reflexivity|]). constructor. }
  cbn [fst snd] in *. rewrite H. eexists [_; _; _], _. split; [reflexivity|].
  repeat (constructor; [eexists; reflexivity|]). constructor.
Qed.

(** The tool server refuses the connection. *)
Lemma setup_failure_is_first_failure_refused :
  let environ : gmap string pystr :=
    {[ "CORAL_ORCHESTRATION_RUNTIME"%string := py "docker";
       "CORAL_SSE_URL"%string := py "https://x/sse";
       "CORAL_AGENT_ID"%string := py "A1" ]} in
  let w : world :=
    fun c =>
      match c with
      | MCPServerAdapter _ => Raised ConnectionError_down
      | _ => Returned PyNone
      end in
  snd (setup_mcp_tools ∅ environ w) = Raised ConnectionError_down
  /\ calls (fst (setup_mcp_tools ∅ environ w))
     = [ print (py "Connecting to Coral Server: https://x/sse?agentId=A1"
                  ++ description_param);
         logger_info (py "Connecting to Coral Server: https://x/sse?agentId=A1"
                        ++ description_param);
         MCPServerAdapter
           (server_params_of (py "https://x/sse?agentId=A1"
                                ++ description_param)) ]
  /\ ((fst (setup_mcp_tools ∅ environ w) = []
       /\ CORAL_SERVER_URL
            (getenv (effective_environ ∅ environ) "CORAL_SSE_URL")
            (getenv (effective_environ ∅ environ) "CORAL_AGENT_ID")
          = Raised ConnectionError_down)
      \/ exists pre c,
          fst (setup_mcp_tools ∅ environ w)
          = pre ++ [(c, Raised ConnectionError_down)]
          /\ Forall (fun ev => exists v, snd ev = Returned v) pre).
Proof.
  intros environ w.
  assert (H : snd (setup_mcp_tools ∅ environ w) = Raised ConnectionError_down)
    by (vm_compute; reflexivity).
  split; [exact H|]. split; [vm_compute; reflexivity|].
  exact (setup_failure_is_first_failure ∅ environ w _ H).
Defined.

(** ** Connection descriptor: the encoded identity *)

Lemma hex_upper_safe (d : N) : d < 16 -> always_safe (hex_upper d) = true.
Proof.
  intros H. unfold hex_upper.
  destruct (N.ltb_spec d 10) as [L|L].
  - assert (E : d = 0 \/ d = 1 \/ d = 2 \/ d = 3 \/ d = 4 \/ d = 5 \/ d = 6
                \/ d = 7 \/ d = 8 \/ d = 9) by lia.
    repeat destruct E as [->|E]; try subst d; reflexivity.
  - assert (E : d = 10 \/ d = 11 \/ d = 12 \/ d = 13 \/ d = 14 \/ d = 15)
      by lia.
    repeat destruct E as [->|E]; try subst d; reflexivity.
Qed.

Lemma form_value_chars (bs : list N) :
  Forall (fun b => b < 256) bs ->
  Forall (fun c => always_safe c = true \/ c = 43 \/ c = 37)
    (flat_map form_byte bs).
Proof.
  induction 1 as [|b bs Hb _ IH]; [constructor|].
  cbn [flat_map]. apply Forall_app. split; [|exact IH].
  unfold form_byte. destruct (always_safe b) eqn:Hs.
  - constructor; [left; exact Hs|constructor].
  - destruct (b =? 32).
    + constructor; [right; left; reflexivity|constructor].
    + constructor; [right; right; reflexivity|].
      constructor; [left; apply hex_upper_safe, div_bound; lia|].
      constructor; [left; apply hex_upper_safe, N.mod_lt; lia|].
      constructor.
Qed.

(** X23.  Whatever the identity holds, in a descriptor it is written
    with unreserved characters, [+] and [%] only: it has no [&], [=],
    [?], [#] or space of its own, so it cannot end the [agentId]
    parameter or add another one. *)
Theorem identity_cannot_add_parameters (base_url agent_id : pyval)
    (url : pystr) :
  CORAL_SERVER_URL base_url agent_id = Returned url ->
  exists q,
    url = str base_url ++ py "?agentId=" ++ q ++ description_param
    /\ Forall (fun c => always_safe c = true \/ c = 43 \/ c = 37) q
    /\ ~ In 38 q /\ ~ In 61 q /\ ~ In 63 q /\ ~ In 35 q /\ ~ In 32 q.
Proof.
  rewrite CORAL_SERVER_URL_form, quote_plus_form.
  destruct (encode_utf8 (str agent_id)) as [bs|] eqn:He; [|discriminate].
  intros [= <-]. exists (flat_map form_byte bs). split; [reflexivity|].
  pose proof (form_value_chars bs (encode_utf8_from_bytes _ _ _ He)) as Hq.
  split; [exact Hq|].
  rewrite List.Forall_forall in Hq.
  repeat split; intros Hin; destruct (Hq _ Hin) as [H|[H|H]];
    discriminate H.
Qed.

(** An identity that tries to add a parameter. *)
Lemma identity_cannot_add_parameters_attempt :
  CORAL_SERVER_URL (PyStr (py "https://x/sse")) (PyStr (py "A1&admin=1 #"))
  = Returned (py "https://x/sse?agentId=A1%26admin%3D1+%23" ++ description_param)
  /\ exists q,
    py "https://x/sse?agentId=A1%26admin%3D1+%23" ++ description_param
    = str (PyStr (py "https://x/sse")) ++ py "?agentId=" ++ q
        ++ description_param
    /\ Forall (fun c => always_safe c = true \/ c = 43 \/ c = 37) q
    /\ ~ In 38 q /\ ~ In 61 q /\ ~ In 63 q /\ ~ In 35 q /\ ~ In 32 q.
Proof.
  assert (H : CORAL_SERVER_URL (PyStr (py "https://x/sse"))
                (PyStr (py "A1&admin=1 #"))
              = Returned (py "https://x/sse?agentId=A1%26admin%3D1+%23"
                            ++ description_param))
    by (vm_compute; reflexivity).
  split; [exact H|].
  exact (identity_cannot_add_parameters _ _ _ H).
Defined.

Lemma encode_utf8_from_ascii (s : pystr) (n : nat) :
  Forall (fun c => c < 128) s -> encode_utf8_from n s = Returned s.
Proof.
  intros H; revert n; induction H as [|c s Hc _ IH]; intros n;
    [reflexivity|].
  simpl. unfold utf8_char. destruct (N.ltb_spec c 128); [|lia].
  rewrite IH. reflexivity.
Qed.

Lemma always_safe_ascii (c : N) : always_safe c = true -> c < 128.
Proof.
  unfold always_safe. intros H.
  repeat (apply orb_prop in H as [H|H]);
    try (apply andb_prop in H as [_ H]; apply N.leb_le in H; lia);
    apply N.eqb_eq in H; lia.
Qed.

Lemma form_value_safe (s : pystr) :
  Forall (fun c => always_safe c = true) s -> flat_map form_byte s = s.
Proof.
  induction 1 as [|c s Hc _ IH]; [reflexivity|].
  cbn [flat_map]. rewrite IH. unfold form_byte. rewrite Hc. reflexivity.
Qed.

(** X24.  An identity made of letters, digits and [_.-~] only stands in
    the descriptor as it is. *)
Theorem unreserved_identity_verbatim (base_url : pyval) (agent_id : pystr) :
  Forall (fun c => always_safe c = true) agent_id ->
  CORAL_SERVER_URL base_url (PyStr agent_id)
  = Returned (str base_url ++ py "?agentId=" ++ agent_id ++ description_param).
Proof.
  intros H. rewrite CORAL_SERVER_URL_form, quote_plus_form. cbn [str].
  unfold encode_utf8. rewrite encode_utf8_from_ascii.
  - rewrite (form_value_safe _ H). reflexivity.
  - rewrite List.Forall_forall in *. intros c Hc.
    exact (always_safe_ascii c (H c Hc)).
Qed.

(** The identity [reddit-agent_1.0~x]. *)
Lemma unreserved_identity_verbatim_example :
  Forall (fun c => always_safe c = true) (py "reddit-agent_1.0~x")
  /\ CORAL_SERVER_URL (PyStr (py "https://x/sse"))
       (PyStr (py "reddit-agent_1.0~x"))
     = Returned (py "https://x/sse" ++ py "?agentId="
                   ++ py "reddit-agent_1.0~x" ++ description_param).
Proof.
  assert (H : Forall (fun c => always_safe c = true) (py "reddit-agent_1.0~x"))
    by (repeat (constructor; [reflexivity|]); constructor).
  split; [exact H|].
  exact (unreserved_identity_verbatim (PyStr (py "https://x/sse")) _ H).
Defined.

(** ** [main]: before the loop *)

Lemma setup_calls_no_kickoff (dotenv environ : gmap string pystr) (w : world) :
  Forall (fun ev => is_kickoff (fst ev) = false)
    (fst (setup_mcp_tools dotenv environ w)).
Proof.
  rewrite setup_mcp_tools_connect.
  destruct (CORAL_SERVER_URL _ _) as [url|e]; [|constructor].
  rewrite connect_unfold.
  destruct (w (print _)); [|repeat constructor].
  destruct (w (logger_info _)); [|repeat constructor].
  destruct (w (MCPServerAdapter _)); repeat constructor.
Qed.

(** What [assemble] leaves: constructions only, and, when it returns,
    the crew as the last of them. *)
Lemma assemble_events (build : builder) (mcp_tools llm : pyval) :
  Forall (fun ev => is_kickoff_event ev = false)
    (fst (assemble build mcp_tools llm))
  /\ forall crew,
      snd (assemble build mcp_tools llm) = Returned crew ->
      exists agents tasks,
        In (Built (Crew agents tasks true) (Returned crew))
           (fst (assemble build mcp_tools llm)).
Proof.
  unfold assemble, construct.
  destruct (build (tools_add mcp_tools)) as [tools|];
    [|split; [repeat constructor|discriminate]].
  destruct (build (Agent _ _ _ _ _ _)) as [agent|];
    [|split; [repeat constructor|discriminate]].
  destruct (build (Task _ _ _)) as [task|];
    [|split; [repeat constructor|discriminate]].
  destruct (build (Crew _ _ _)) as [crew|];
    [|split; [repeat constructor|discriminate]].
  split; [repeat constructor|].
  intros crew' [= <-]. exists [agent], [task]. simpl. tauto.
Qed.

(** X25.  When [setup_mcp_tools] raises, [main] raises the same
    exception at once: it has made the calls of [setup_mcp_tools] and
    nothing else, builds no LLM, agent, task or crew, and never enters
    the loop. *)
Theorem setup_failure_is_fatal (fuel : nat)
    (dotenv environ : gmap string pystr) (w0 : world) (build : builder)
    (w : nat -> world) (e : exn) :
  snd (setup_mcp_tools dotenv environ w0) = Raised e ->
  main fuel dotenv environ w0 build w
  = (map Called (fst (setup_mcp_tools dotenv environ w0)), Propagated e).
Proof.
  intros H. unfold main.
  destruct (setup_mcp_tools dotenv environ w0) as [t0 [v|e0]];
    simpl in H; [discriminate|].
  injection H as ->. reflexivity.
Qed.

(** The tool server refuses the connection: nothing of the 50 iterations
    asked for is run. *)
Lemma setup_failure_is_fatal_refused :
  let environ : gmap string pystr :=
    {[ "CORAL_ORCHESTRATION_RUNTIME"%string := py "docker";
       "CORAL_SSE_URL"%string := py "https://x/sse";
       "CORAL_AGENT_ID"%string := py "A1" ]} in
  let w0 : world :=
    fun c =>
      match c with
      | MCPServerAdapter _ => Raised ConnectionError_down
      | _ => Returned PyNone
      end in
  snd (setup_mcp_tools ∅ environ w0) = Raised ConnectionError_down
  /\ main 50 ∅ environ w0 (fun _ => Returned PyNone) (fun _ => world_quiet)
     = (map Called (fst (setup_mcp_tools ∅ environ w0)),
        Propagated ConnectionError_down).
Proof.
  intros environ w0.
  assert (H : snd (setup_mcp_tools ∅ environ w0) = Raised ConnectionError_down)
    by (vm_compute; reflexivity).
  split; [exact H|].
  exact (setup_failure_is_fatal 50 ∅ environ w0 _ _ _ H).
Defined.

(** X26.  When building the LLM client raises an [Exception], [main] logs
    [Failed to initialize LLM:] with the text of the exception and raises
    the same exception again: after the calls of [setup_mcp_tools] come
    the failed construction and that one log call, and neither agent,
    task, crew nor loop. *)
Theorem llm_failure_logged_and_raised (fuel : nat)
    (dotenv environ : gmap string pystr) (w0 : world) (build : builder)
    (w : nat -> world) (mcp_tools v : pyval) (e : exn) :
  snd (setup_mcp_tools dotenv environ w0) = Returned mcp_tools ->
  build (new_llm (effective_environ dotenv environ)) = Raised e ->
  isinstance e Exception = true ->
  w0 (logger_error (py "Failed to initialize LLM: " ++ exn_str e))
  = Returned v ->
  main fuel dotenv environ w0 build w
  = (map Called (fst (setup_mcp_tools dotenv environ w0))
       ++ [ Built (new_llm (effective_environ dotenv environ)) (Raised e);
            Called (logger_error (py "Failed to initialize LLM: "
                                    ++ exn_str e), Returned v) ],
     Propagated e).
Proof.
  intros Hs Hb He Hv. unfold main, llm_failure.
  destruct (setup_mcp_tools dotenv environ w0) as [t0 [m|e0]];
    simpl in Hs; [|discriminate].
  rewrite Hb, He, Hv. reflexivity.
Qed.

(** The LLM library rejects the configuration with [ValueError]. *)
Lemma llm_failure_logged_and_raised_ValueError :
  let ValueError := mk_exn (ExceptionSubclass "ValueError") (py "bad key") in
  let environ : gmap string pystr :=
    {[ "CORAL_ORCHESTRATION_RUNTIME"%string := py "docker";
       "CORAL_SSE_URL"%string := py "https://x/sse";
       "CORAL_AGENT_ID"%string := py "A1" ]} in
  let build : builder :=
    fun c =>
      match c with
      | LLM _ _ _ => Raised ValueError
      | _ => Returned PyNone
      end in
  isinstance ValueError Exception = true
  /\ main 50 ∅ environ world_quiet build (fun _ => world_quiet)
     = (map Called (fst (setup_mcp_tools ∅ environ world_quiet))
          ++ [ Built (LLM (py "openrouter/openai/gpt-4.1-mini")
                        (py "https://openrouter.ai/api/v1") PyNone)
                 (Raised ValueError);
               Called (logger_error (py "Failed to initialize LLM: bad key"),
                       Returned PyNone) ],
        Propagated ValueError).
Proof.
  intros ValueError environ build. split; [reflexivity|].
  assert (Hs : snd (setup_mcp_tools ∅ environ world_quiet) = Returned PyNone)
    by (vm_compute; reflexivity).
  exact (llm_failure_logged_and_raised 50 ∅ environ world_quiet build
           (fun _ => world_quiet) PyNone PyNone ValueError
           Hs eq_refl eq_refl eq_refl).
Defined.

(** X27.  The [load_dotenv(override=True)] of [setup_mcp_tools] reaches
    into [main]: with [CORAL_ORCHESTRATION_RUNTIME] unset and
    [OPENROUTER_API_KEY] in the [.env] file, the LLM client is built with
    the key of the file, whatever key the environment holds. *)
Theorem api_key_from_dotenv (fuel : nat)
    (dotenv environ : gmap string pystr) (w0 : world) (build : builder)
    (w : nat -> world) (mcp_tools : pyval) (key : pystr) :
  environ !! "CORAL_ORCHESTRATION_RUNTIME"%string = None ->
  dotenv !! "OPENROUTER_API_KEY"%string = Some key ->
  snd (setup_mcp_tools dotenv environ w0) = Returned mcp_tools ->
  exists r rest,
    fst (main fuel dotenv environ w0 build w)
    = map Called (fst (setup_mcp_tools dotenv environ w0))
        ++ Built (LLM (py "openrouter/openai/gpt-4.1-mini")
                    (py "https://openrouter.ai/api/v1") (PyStr key)) r
        :: rest.
Proof.
  intros Hr Hk Hs.
  assert (Hllm : new_llm (effective_environ dotenv environ)
                 = LLM (py "openrouter/openai/gpt-4.1-mini")
                     (py "https://openrouter.ai/api/v1") (PyStr key)).
  { unfold new_llm, effective_environ, getenv, load_dotenv. rewrite Hr.
    rewrite (lookup_union_Some_l dotenv environ _ _ Hk). reflexivity. }
  unfold main.
  destruct (setup_mcp_tools dotenv environ w0) as [t0 [m|e0]];
    simpl in Hs; [|discriminate].
  rewrite Hllm. cbn [fst].
  destruct (build _) as [llm|e].
  - destruct (assemble build m llm) as [t1 [crew|e]].
    + destruct (main_loop fuel w 0) as [t s]. cbn [fst]. eauto.
    + cbn [fst]. eauto.
  - destruct (isinstance e Exception); cbn [fst]; eauto.
Qed.

(** The environment holds one key, the file another. *)
Lemma api_key_from_dotenv_two_keys :
  let environ : gmap string pystr :=
    {[ "CORAL_SSE_URL"%string := py "https://x/sse";
       "CORAL_AGENT_ID"%string := py "A1";
       "OPENROUTER_API_KEY"%string := py "from-shell" ]} in
  let dotenv : gmap string pystr :=
    {[ "OPENROUTER_API_KEY"%string := py "from-file" ]} in
  environ !! "CORAL_ORCHESTRATION_RUNTIME"%string = None
  /\ exists r rest,
    fst (main 1 dotenv environ world_quiet (fun _ => Returned PyNone)
           (fun _ => world_quiet))
    = map Called (fst (setup_mcp_tools dotenv environ world_quiet))
        ++ Built (LLM (py "openrouter/openai/gpt-4.1-mini")
                    (py "https://openrouter.ai/api/v1")
                    (PyStr (py "from-file"))) r
        :: rest.
Proof.
  intros environ dotenv.
  assert (Hr : environ !! "CORAL_ORCHESTRATION_RUNTIME"%string = None)
    by reflexivity.
  assert (Hk : dotenv !! "OPENROUTER_API_KEY"%string = Some (py "from-file"))
    by reflexivity.
  assert (Hs : snd (setup_mcp_tools dotenv environ world_quiet)
               = Returned PyNone) by (vm_compute; reflexivity).
  split; [exact Hr|].
  exact (api_key_from_dotenv 1 dotenv environ world_quiet
           (fun _ => Returned PyNone) (fun _ => world_quiet) PyNone _
           Hr Hk Hs).
Defined.

(** X28.  The task runner is invoked only once the crew is built: a run
    of [main] with a call of [crew.kickoff()] has, before the loop, the
    construction of the crew having returned.  So when the tool session,
    the LLM client, the tool list, the agent, the task or the crew
    fails, no cycle is ever started. *)
Theorem kickoff_only_after_crew_built (fuel : nat)
    (dotenv environ : gmap string pystr) (w0 : world) (build : builder)
    (w : nat -> world) (o : outcome pyval) :
  In (Called (crew_kickoff, o)) (fst (main fuel dotenv environ w0 build w)) ->
  exists agents tasks crew,
    In (Built (Crew agents tasks true) (Returned crew))
       (fst (main fuel dotenv environ w0 build w)).
Proof.
  unfold main. pose proof (setup_calls_no_kickoff dotenv environ w0) as H0.
  rewrite List.Forall_forall in H0.
  assert (Hno : forall t0 : trace,
             (forall ev, In ev t0 -> is_kickoff (fst ev) = false) ->
             ~ In (Called (crew_kickoff, o)) (map Called t0)).
  { intros t0 Ht Hin. apply in_map_iff in Hin as [ev [[= ->] Hin]].
    specialize (Ht _ Hin). discriminate Ht. }
  destruct (setup_mcp_tools dotenv environ w0) as [t0 [m|e0]]; cbn [fst] in *.
  2:{ intros Hin. exfalso. exact (Hno t0 H0 Hin). }
  destruct (build (new_llm _)) as [llm|e].
  - destruct (assemble_events build m llm) as [Hev Hcrew].
    rewrite List.Forall_forall in Hev.
    destruct (assemble build m llm) as [t1 [crew|e]]; cbn [fst snd] in *.
    + intros _. destruct (Hcrew crew eq_refl) as (agents & tasks & Hin).
      exists agents, tasks, crew.
      destruct (main_loop fuel w 0) as [t s]. cbn [fst].
      apply in_or_app. right. right. apply in_or_app. left. exact Hin.
    + intros Hin. exfalso. apply in_app_or in Hin as [Hin|[Hin|Hin]].
      * exact (Hno t0 H0 Hin).
      * discriminate Hin.
      * specialize (Hev _ Hin). discriminate Hev.
  - destruct (isinstance e Exception); cbn [fst]; intros Hin; exfalso;
      apply in_app_or in Hin as [Hin|Hin];
      try exact (Hno t0 H0 Hin);
      simpl in Hin; intuition discriminate.
Qed.

(** One quiet iteration after a quiet startup. *)
Lemma kickoff_only_after_crew_built_quiet :
  let environ : gmap string pystr :=
    {[ "CORAL_ORCHESTRATION_RUNTIME"%string := py "docker";
       "CORAL_SSE_URL"%string := py "https://x/sse";
       "CORAL_AGENT_ID"%string := py "A1" ]} in
  In (Called (crew_kickoff, Returned PyNone))
     (fst (main 1 ∅ environ world_quiet (fun _ => Returned PyNone)
             (fun _ => world_quiet)))
  /\ exists agents tasks crew,
    In (Built (Crew agents tasks true) (Returned crew))
       (fst (main 1 ∅ environ world_quiet (fun _ => Returned PyNone)
               (fun _ => world_quiet))).
Proof.
  intros environ.
  assert (H : In (Called (crew_kickoff, Returned PyNone))
                (fst (main 1 ∅ environ world_quiet (fun _ => Returned PyNone)
                        (fun _ => world_quiet)))).
  { vm_compute. tauto. }
  split; [exact H|].
  exact (kickoff_only_after_crew_built 1 ∅ environ world_quiet _ _ _ H).
Defined.

(** X29.  [main] returns only after an interrupt in the loop: a run of
    [main] that ends without an exception ends with a call of the [try]
    raising [KeyboardInterrupt] and the shutdown message; every failure
    before the loop raises. *)
Theorem main_returns_only_after_interrupt (fuel : nat)
    (dotenv environ : gmap string pystr) (w0 : world) (build : builder)
    (w : nat -> world) :
  snd (main fuel dotenv environ w0 build w) = Stopped ->
  exists pre c e v,
    fst (main fuel dotenv environ w0 build w)
    = pre ++ [Called (c, Raised e); Called (shutdown_notice, Returned v)]
    /\ (c = cycle_start \/ c = crew_kickoff \/ c = asyncio_sleep 1)
    /\ exn_cls e = KeyboardInterrupt.
Proof.
  unfold main.
  destruct (setup_mcp_tools dotenv environ w0) as [t0 [m|e0]];
    [|discriminate].
  destruct (build (new_llm _)) as [llm|e].
  - destruct (assemble build m llm) as [t1 [crew|e]]; [|discriminate].
    pose proof (main_loop_stopped fuel w 0) as Hstop.
    destruct (main_loop fuel w 0) as [t s]. cbn [fst snd] in *.
    intros Hs. destruct (Hstop Hs) as (pre & c & e & v & -> & Hc & He).
    exists (map Called t0 ++ Built (new_llm (effective_environ dotenv environ))
                                   (Returned llm) :: t1 ++ map Called pre),
      c, e, v.
    split; [|split; [exact (in_try_cases c Hc)
                    |apply isinstance_KeyboardInterrupt; exact He]].
    rewrite map_app. cbn [map]. rewrite <- !app_assoc. cbn [app].
    rewrite <- !app_assoc. reflexivity.
  - destruct (isinstance e Exception); [|discriminate].
    destruct (w0 (llm_failure e)); discriminate.
Qed.

(** A quiet startup, one quiet iteration, then Ctrl-C during the idle
    delay of the second. *)
Lemma main_returns_only_after_interrupt_idle :
  let environ : gmap string pystr :=
    {[ "CORAL_ORCHESTRATION_RUNTIME"%string := py "docker";
       "CORAL_SSE_URL"%string := py "https://x/sse";
       "CORAL_AGENT_ID"%string := py "A1" ]} in
  snd (main 9 ∅ environ world_quiet (fun _ => Returned PyNone)
         (raising_at 1 is_idle_sleep interrupt)) = Stopped
  /\ exists pre c e v,
    fst (main 9 ∅ environ world_quiet (fun _ => Returned PyNone)
           (raising_at 1 is_idle_sleep interrupt))
    = pre ++ [Called (c, Raised e); Called (shutdown_notice, Returned v)]
    /\ (c = cycle_start \/ c = crew_kickoff \/ c = asyncio_sleep 1)
    /\ exn_cls e = KeyboardInterrupt.
Proof.
  intros environ.
  assert (H : snd (main 9 ∅ environ world_quiet (fun _ => Returned PyNone)
                     (raising_at 1 is_idle_sleep interrupt)) = Stopped)
    by (vm_compute; reflexivity).
  split; [exact H|].
  exact (main_returns_only_after_interrupt 9 ∅ environ world_quiet _ _ H).
Defined.


(* ===================================================================== *)
(** * The descriptor as a URL *)
(* ===================================================================== *)

(** ** Decoding what [str.encode] wrote *)

Ltac compare_all :=
  repeat (match goal with
          | |- context [N.ltb ?a ?b] => destruct (N.ltb_spec a b); try lia
          | |- context [N.leb ?a ?b] => destruct (N.leb_spec a b); try lia
          end; cbn [andb orb negb]).

Lemma decode_utf8_1 (c : N) (r : list N) :
  c < 128 -> decode_utf8 (c :: r) = option_map (cons c) (decode_utf8 r).
Proof. intros H. cbn [decode_utf8]. compare_all. reflexivity. Qed.

Lemma decode_utf8_2 (x y : N) (r : list N) :
  2 <= x -> x < 32 -> y < 64 ->
  decode_utf8 (192 + x :: 128 + y :: r)
  = option_map (cons (64 * x + y)) (decode_utf8 r).
Proof.
  intros Hx Hx' Hy. cbn [decode_utf8]. unfold continuation. compare_all.
  replace ((192 + x - 192) * 64 + (128 + y - 128)) with (64 * x + y) by lia.
  reflexivity.
Qed.

Lemma decode_utf8_3 (x y z : N) (r : list N) :
  x < 16 -> y < 64 -> z < 64 ->
  2048 <= 64 * (64 * x + y) + z ->
  is_surrogate (64 * (64 * x + y) + z) = false ->
  decode_utf8 (224 + x :: 128 + y :: 128 + z :: r)
  = option_map (cons (64 * (64 * x + y) + z)) (decode_utf8 r).
Proof.
  intros Hx Hy Hz Hlow Hs. cbn [decode_utf8]. cbv zeta.
  replace (((224 + x - 224) * 64 + (128 + y - 128)) * 64 + (128 + z - 128))
    with (64 * (64 * x + y) + z) by lia.
  rewrite Hs. unfold continuation. compare_all. reflexivity.
Qed.

Lemma decode_utf8_4 (x y z u : N) (r : list N) :
  x < 5 -> y < 64 -> z < 64 -> u < 64 ->
  65536 <= 64 * (64 * (64 * x + y) + z) + u ->
  64 * (64 * (64 * x + y) + z) + u < 1114112 ->
  decode_utf8 (240 + x :: 128 + y :: 128 + z :: 128 + u :: r)
  = option_map (cons (64 * (64 * (64 * x + y) + z) + u)) (decode_utf8 r).
Proof.
  intros Hx Hy Hz Hu Hlow Hhigh. cbn [decode_utf8]. cbv zeta.
  replace ((((240 + x - 240) * 64 + (128 + y - 128)) * 64 + (128 + z - 128))
             * 64 + (128 + u - 128))
    with (64 * (64 * (64 * x + y) + z) + u) by lia.
  unfold continuation. compare_all. reflexivity.
Qed.

(** The decoder reads back the bytes the encoder writes for a code
    point. *)
Lemma utf8_char_decode (c : N) (b r : list N) :
  utf8_char c = Some b ->
  decode_utf8 (b ++ r) = option_map (cons c) (decode_utf8 r).
Proof.
  assert (D2 : c = 64 * (c / 64) + c mod 64) by (apply N.div_mod; lia).
  assert (D3 : c = 64 * (64 * (c / 4096) + (c / 64) mod 64) + c mod 64).
  { change 4096 with (64 * 64). rewrite <- N.Div0.div_div.
    rewrite <- !N.div_mod by lia. reflexivity. }
  assert (D4 : c = 64 * (64 * (64 * (c / 262144) + (c / 4096) mod 64)
                          + (c / 64) mod 64) + c mod 64).
  { change 262144 with (64 * 64 * 64). change 4096 with (64 * 64).
    rewrite <- !N.Div0.div_div. rewrite <- !N.div_mod by lia. reflexivity. }
  unfold utf8_char.
  destruct (N.ltb_spec c 128) as [H1|H1].
  { intros [= <-]. apply decode_utf8_1. exact H1. }
  destruct (N.ltb_spec c 2048) as [H2|H2].
  { intros [= <-]. cbn [app]. rewrite decode_utf8_2.
    - rewrite <- D2. reflexivity.
    - apply N.div_le_lower_bound; lia.
    - apply div_bound; lia.
    - apply N.mod_lt. lia. }
  destruct (N.ltb_spec c 65536) as [H3|H3].
  { destruct (is_surrogate c) eqn:Hs; [discriminate|]. intros [= <-].
    cbn [app]. rewrite decode_utf8_3.
    - rewrite <- D3. reflexivity.
    - apply div_bound; lia.
    - apply N.mod_lt. lia.
    - apply N.mod_lt. lia.
    - rewrite <- D3. exact H2.
    - rewrite <- D3. exact Hs. }
  destruct (N.ltb_spec c 1114112) as [H4|H4]; [|discriminate].
  intros [= <-]. cbn [app]. rewrite decode_utf8_4.
  - rewrite <- D4. reflexivity.
  - apply div_bound; lia.
  - apply N.mod_lt. lia.
  - apply N.mod_lt. lia.
  - apply N.mod_lt. lia.
  - rewrite <- D4. exact H3.
  - rewrite <- D4. exact H4.
Qed.

(** Decoding the bytes of a string gives the string back. *)
Lemma encode_utf8_from_decode (s : pystr) (n : nat) (bs : list N) :
  encode_utf8_from n s = Returned bs -> decode_utf8 bs = Some s.
Proof.
  revert n bs; induction s as [|c s IH]; intros n bs H.
  - injection H as <-. reflexivity.
  - apply encode_utf8_from_cons in H as (b & r & Hc & Hr & ->).
    rewrite (utf8_char_decode c b r Hc), (IH _ _ Hr). reflexivity.
Qed.

Lemma utf8_char_scalar (c : N) : utf8_char c = None <-> ~ scalar c.
Proof.
  unfold utf8_char, is_surrogate, scalar.
  destruct (N.ltb_spec c 128); [split; [discriminate|lia]|].
  destruct (N.ltb_spec c 2048); [split; [discriminate|lia]|].
  destruct (N.ltb_spec c 65536).
  - destruct (N.leb_spec 55296 c), (N.leb_spec c 57343); cbn [andb];
      split; try discriminate; try reflexivity; lia.
  - destruct (N.ltb_spec c 1114112); split; try discriminate;
      try reflexivity; lia.
Qed.


Lemma encode_utf8_from_not_scalar (s : pystr) (n : nat) (e : exn) :
  encode_utf8_from n s = Raised e ->
  exn_cls e = ExceptionSubclass "UnicodeEncodeError"
  /\ Exists (fun c => ~ scalar c) s.
Proof.
  intros H. destruct (encode_utf8_from_raised s n e H) as [Hc Hex].
  split; [exact Hc|]. clear H Hc.
  induction Hex as [c s Hn|c s _ IH].
  - apply Exists_cons_hd. apply utf8_char_scalar. exact Hn.
  - apply Exists_cons_tl. exact IH.
Qed.

(** ** Percent-encoding, said with the characters *)

Lemma below_256 (P : N -> bool) :
  forallb P (map N.of_nat (seq 0 256)) = true ->
  forall b, b < 256 -> P b = true.
Proof.
  intros H b Hb. rewrite forallb_forall in H. apply H.
  apply in_map_iff. exists (N.to_nat b). split; [apply N2Nat.id|].
  apply in_seq. lia.
Qed.

Lemma percent_byte_form_byte (b : N) :
  b < 256 -> percent_byte b = form_byte b.
Proof.
  intros H. apply pystr_eqb_eq.
  apply (below_256 (fun b => pystr_eqb (percent_byte b) (form_byte b)));
    [vm_compute; reflexivity|exact H].
Qed.

Lemma percent_bytes_form_bytes (bs : list N) :
  Forall (fun b => b < 256) bs ->
  flat_map form_byte bs = flat_map percent_byte bs.
Proof.
  induction 1 as [|b bs Hb _ IH]; [reflexivity|].
  cbn [flat_map]. rewrite IH, (percent_byte_form_byte b Hb). reflexivity.
Qed.

(** [quote_plus] returns the bytes of a string that decode to it, written
    byte by byte as a URL-encoded value, and raises only for a string
    with a code point that is no scalar value. *)
Lemma quote_plus_decodes (s : pystr) :
  match quote_plus s with
  | Returned q =>
      exists bs, decode_utf8 bs = Some s /\ q = flat_map percent_byte bs
  | Raised e =>
      exn_cls e = ExceptionSubclass "UnicodeEncodeError"
      /\ Exists (fun c => ~ scalar c) s
  end.
Proof.
  rewrite quote_plus_form. destruct (encode_utf8 s) as [bs|e] eqn:He.
  - exists bs. split; [exact (encode_utf8_from_decode _ _ _ He)|].
    exact (percent_bytes_form_bytes _ (encode_utf8_from_bytes _ _ _ He)).
  - exact (encode_utf8_from_not_scalar _ _ _ He).
Qed.

(** C5.  With [base_url = "https://x/sse"] and [agent_id = "A1"] the
    descriptor is the first URL below; with an identity of accented,
    three- and four-byte characters, a space, [+], [%], [~] and [/] it is
    the second.  For every base URL and identity that [os.getenv] can
    give: when a descriptor is built, it is the base URL, a question
    mark, [agentId=] followed by the URL-encoded identity, that is, the
    bytes that decode as UTF-8 to the identity, each unreserved one as
    itself, a space as [+] and any other as [%XX], then [&] and
    [agentDescription=] with the encoded description; no descriptor is
    built only when the identity holds a code point that is no scalar
    value, and [urlencode] then raises [UnicodeEncodeError]. *)
Theorem descriptor_is_url_with_query :
  CORAL_SERVER_URL (PyStr (py "https://x/sse")) (PyStr (py "A1"))
  = Returned (py "https://x/sse?agentId=A1&agentDescription=An+AI+agent+that+generates+Reddit+posts+with+memory-enhanced+personalization")
  /\ CORAL_SERVER_URL (PyStr (py "https://x/sse"))
       (PyStr [0xE9; 0x20; 0x20AC; 0x1D11E; 0x2B; 0x25; 0x7E; 0x2F])
     = Returned (py "https://x/sse?agentId=%C3%A9+%E2%82%AC%F0%9D%84%9E%2B%25~%2F&agentDescription=An+AI+agent+that+generates+Reddit+posts+with+memory-enhanced+personalization")
  /\ forall base_url agent_id : pyval,
      match CORAL_SERVER_URL base_url agent_id with
      | Returned url =>
          exists bs,
            decode_utf8 bs = Some (str agent_id)
            /\ url = str base_url ++ py "?"
                       ++ py "agentId=" ++ flat_map percent_byte bs
                       ++ py "&"
                       ++ py "agentDescription=An+AI+agent+that+generates+Reddit+posts+with+memory-enhanced+personalization"
      | Raised e =>
          exn_cls e = ExceptionSubclass "UnicodeEncodeError"
          /\ Exists (fun c => ~ scalar c) (str agent_id)
      end.
Proof.
  split; [vm_compute; reflexivity|]. split; [vm_compute; reflexivity|].
  intros base_url agent_id. rewrite CORAL_SERVER_URL_form.
  pose proof (quote_plus_decodes (str agent_id)) as H.
  destruct (quote_plus (str agent_id)) as [q|e]; [|exact H].
  destruct H as (bs & Hd & ->). exists bs. split; [exact Hd|reflexivity].
Qed.

(** ** Which pairs give the same descriptor *)

Lemma env_value_str (o1 o2 : option pystr) :
  str (env_value o1) = str (env_value o2) <->
  o1 = o2 \/ unset_or_None_text o1 o2.
Proof.
  unfold unset_or_None_text.
  destruct o1 as [s1|], o2 as [s2|]; cbn [env_value str]; split.
  - intros ->. left. reflexivity.
  - intros [[= ->]|[[H _]|[_ H]]]; [reflexivity|discriminate H|discriminate H].
  - intros ->. right. right. split; reflexivity.
  - intros [H|[[H _]|[[= ->] _]]]; [discriminate H|discriminate H|reflexivity].
  - intros <-. right. left. split; reflexivity.
  - intros [H|[[_ [= ->]]|[H _]]]; [discriminate H|reflexivity|discriminate H].
  - intros _. left. reflexivity.
  - intros _. reflexivity.
Qed.

(** C6, as the code has it.  Two pairs of identity and base URL, each
    variable set or unset, give the same descriptor exactly when, for the
    identity and for the base URL, the two values are equal or one is
    unset and the other is set to the text [None].  So two distinct
    pairs give distinct descriptors unless they differ only in that way;
    two distinct pairs of set values always do. *)
Theorem descriptor_injective_up_to_None (base_url1 agent_id1 base_url2
    agent_id2 : option pystr) (u1 u2 : pystr) :
  CORAL_SERVER_URL (env_value base_url1) (env_value agent_id1) = Returned u1 ->
  CORAL_SERVER_URL (env_value base_url2) (env_value agent_id2) = Returned u2 ->
  (u1 = u2 <->
   (agent_id1 = agent_id2 \/ unset_or_None_text agent_id1 agent_id2)
   /\ (base_url1 = base_url2 \/ unset_or_None_text base_url1 base_url2)).
Proof.
  intros H1 H2. rewrite <- !env_value_str. split.
  - intros <-.
    destruct (descriptor_tells_renderings _ _ _ _ _ H1 H2) as [Hb Ha].
    split; assumption.
  - intros [Ha Hb]. rewrite CORAL_SERVER_URL_form in H1, H2.
    rewrite Ha, Hb in H1. rewrite H1 in H2. injection H2 as H2. exact H2.
Qed.

(** The identities [A1] and [A2] at the same base URL give different
    descriptors; the identity unset and the identity [A1] do too. *)
Lemma descriptor_injective_up_to_None_examples :
  (CORAL_SERVER_URL (env_value (Some (py "https://x/sse")))
     (env_value (Some (py "A1")))
   = Returned (py "https://x/sse?agentId=A1" ++ description_param)
   /\ CORAL_SERVER_URL (env_value (Some (py "https://x/sse")))
        (env_value (Some (py "A2")))
      = Returned (py "https://x/sse?agentId=A2" ++ description_param)
   /\ py "https://x/sse?agentId=A1" ++ description_param
      <> py "https://x/sse?agentId=A2" ++ description_param)
  /\ (CORAL_SERVER_URL (env_value (Some (py "https://x/sse")))
        (env_value None)
      = Returned (py "https://x/sse?agentId=None" ++ description_param)
      /\ py "https://x/sse?agentId=None" ++ description_param
         <> py "https://x/sse?agentId=A1" ++ description_param).
Proof.
  assert (H1 : CORAL_SERVER_URL (env_value (Some (py "https://x/sse")))
                 (env_value (Some (py "A1")))
               = Returned (py "https://x/sse?agentId=A1" ++ description_param))
    by (vm_compute; reflexivity).
  assert (H2 : CORAL_SERVER_URL (env_value (Some (py "https://x/sse")))
                 (env_value (Some (py "A2")))
               = Returned (py "https://x/sse?agentId=A2" ++ description_param))
    by (vm_compute; reflexivity).
  assert (H3 : CORAL_SERVER_URL (env_value (Some (py "https://x/sse")))
                 (env_value None)
               = Returned (py "https://x/sse?agentId=None" ++ description_param))
    by (vm_compute; reflexivity).
  split.
  - split; [exact H1|]. split; [exact H2|]. intros Hu.
    apply (descriptor_injective_up_to_None _ _ _ _ _ _ H1 H2) in Hu
      as [[Ha|[[Ha _]|[_ Ha]]] _]; discriminate Ha.
  - split; [exact H3|]. intros Hu.
    apply (descriptor_injective_up_to_None _ _ _ _ _ _ H3 H1) in Hu
      as [[Ha|[[_ Ha]|[Ha _]]] _]; discriminate Ha.
Defined.

(* ===================================================================== *)
(** * Session bootstrap with a variable unset *)
(* ===================================================================== *)




